(** * validate-a2a: the result-interpretation engine of the action

    The action runs the [capiscio] validator, parses the JSON document the
    validator prints, and turns it into step outputs, log lines and the
    pass/fail state of the job.  The repository holds two variants of the
    entry point [run]:

    - [src/index.ts], written for the [success] / [total] schema, and
    - a second copy written for the older [valid] / [score] schema.

    Both are embedded here, statement by statement, over a model of the
    JSON values that [JSON.parse] can return and of the JavaScript
    operators the two functions apply to them.  The effects of [run] are
    the calls it makes on [@actions/core]; a run is therefore modelled by
    the ordered list of those calls. *)

From Stdlib Require Import String Ascii List ZArith NArith Lia Bool DecimalString.
Import ListNotations.
Local Open Scope string_scope.
Set Warnings "-register-all".

(* ================================================================= *)
(** ** JavaScript values and operators *)

Module JS.

(** What [JSON.parse] can produce, plus [undefined], which property
    reads produce.  Numbers are the integers (counts and 0..100 scores
    in the validator's documents). *)
Inductive value : Type :=
| VUndef
| VNull
| VBool (b : bool)
| VNum (z : Z)
| VStr (s : string)
| VArr (elements : list value)
| VObj (props : list (string * value)).

(** The faults the engine can raise on such values; all three are
    [TypeError]s, hence instances of [Error]. *)
Inductive fault : Type :=
| NullishRead (base : value) (property : string)
| NotAFunction (property : string)
| NotPrimitive.

Definition typeName (v : value) : string :=
  match v with VNull => "null" | _ => "undefined" end.

(** [error.message], in the wording of Node's engine; for a call of
    something that is not a function Node names the whole callee
    expression, of which only the method name is kept here. *)
Definition message (e : fault) : string :=
  match e with
  | NullishRead base p =>
      "Cannot read properties of " ++ typeName base ++ " (reading '" ++ p ++ "')"
  | NotAFunction p => p ++ " is not a function"
  | NotPrimitive => "Cannot convert object to primitive value"
  end.

(** Outcome of evaluating an expression. *)
Inductive completion (A : Type) : Type :=
| Normal (a : A)
| Throw (e : fault).
Arguments Normal {A} a.
Arguments Throw {A} e.

Definition andThen {A B} (c : completion A) (f : A -> completion B) : completion B :=
  match c with
  | Normal a => f a
  | Throw e => Throw e
  end.

(** Own properties of an object built by [JSON.parse]: a later
    duplicate of a key overrides an earlier one. *)
Fixpoint own_property (k : string) (props : list (string * value)) : option value :=
  match props with
  | [] => None
  | (k', v) :: rest =>
      match own_property k rest with
      | Some w => Some w
      | None => if String.eqb k k' then Some v else None
      end
  end.

Definition has_own (k : string) (props : list (string * value)) : bool :=
  match own_property k props with Some _ => true | None => false end.

Definition prop (k : string) (props : list (string * value)) : value :=
  match own_property k props with Some v => v | None => VUndef end.

(** [Number.prototype.toString] on an integer: its decimal digits.  This is
    what the engine prints for the integers it can hold exactly and prints
    in full, those of magnitude below 2^53 ([safe_integer] below); beyond
    them it rounds or switches to exponent notation, which is not
    modelled. *)
Definition Number_toString (z : Z) : string :=
  NilZero.string_of_int (Z.to_int z).

(** [s.length] counts UTF-16 code units; strings are held as UTF-8. *)
Definition utf16_units (c : ascii) : nat :=
  let n := N_of_ascii c in
  if (n <? 128)%N then 1
  else if (n <? 192)%N then 0
  else if (n <? 240)%N then 1
  else 2.

Fixpoint String_length (s : string) : nat :=
  match s with
  | EmptyString => 0
  | String c rest => utf16_units c + String_length rest
  end.

(** [ToBoolean]. *)
Definition ToBoolean (v : value) : bool :=
  match v with
  | VUndef | VNull => false
  | VBool b => b
  | VNum z => negb (z =? 0)%Z
  | VStr s => negb (String.eqb s "")
  | VArr _ | VObj _ => true
  end.

(** [a || b] *)
Definition or_else (a b : value) : value :=
  if ToBoolean a then a else b.

(** [s || d] where [s] is a string or [undefined]. *)
Definition str_or (s : option string) (d : string) : string :=
  match s with
  | Some s' => if String.eqb s' "" then d else s'
  | None => d
  end.

(** [v !== null] *)
Definition is_not_null (v : value) : bool :=
  match v with VNull => false | _ => true end.

(** [v.k], for the property names the engine reads: none of them is an
    array index or a member of a built-in prototype, so on anything but
    an object only [length] can be found. *)
Definition get (k : string) (v : value) : completion value :=
  match v with
  | VUndef | VNull => Throw (NullishRead v k)
  | VBool _ | VNum _ => Normal VUndef
  | VStr s =>
      Normal (if String.eqb k "length" then VNum (Z.of_nat (String_length s)) else VUndef)
  | VArr l =>
      Normal (if String.eqb k "length" then VNum (Z.of_nat (List.length l)) else VUndef)
  | VObj props => Normal (prop k props)
  end.

(** [v?.k] *)
Definition get_opt (k : string) (v : value) : completion value :=
  match v with
  | VUndef | VNull => Normal VUndef
  | _ => get k v
  end.

(** [ToString], as applied by template literals and by [Array.prototype.join].
    An object parsed from JSON inherits [Object.prototype.toString] unless
    it has an own entry of that name, which is never callable. *)
Fixpoint ToString (v : value) : completion string :=
  match v with
  | VUndef => Normal "undefined"
  | VNull => Normal "null"
  | VBool b => Normal (if b then "true" else "false")
  | VNum z => Normal (Number_toString z)
  | VStr s => Normal s
  | VArr l =>
      (fix join (l : list value) : completion string :=
         match l with
         | [] => Normal ""
         | x :: rest =>
             andThen (match x with
                      | VUndef | VNull => Normal ""
                      | _ => ToString x
                      end)
               (fun s =>
                  match rest with
                  | [] => Normal s
                  | _ => andThen (join rest) (fun r => Normal (s ++ "," ++ r))
                  end)
         end) l
  | VObj props =>
      if has_own "toString" props then Throw NotPrimitive
      else Normal "[object Object]"
  end.

(** [v.toString()] *)
Definition toString (v : value) : completion string :=
  match v with
  | VUndef | VNull => Throw (NullishRead v "toString")
  | VObj props =>
      if has_own "toString" props then Throw (NotAFunction "toString")
      else Normal "[object Object]"
  | _ => ToString v
  end.

(** [v?.toString()] *)
Definition toString_opt (v : value) : completion (option string) :=
  match v with
  | VUndef | VNull => Normal None
  | _ => andThen (toString v) (fun s => Normal (Some s))
  end.

Section Relational.

(** Whether [ToNumber s > 0] for a string [s]: the engine's numeric
    reading of strings is left to the platform. *)
Variable StringToNumber_gt0 : string -> bool.

(** [v > 0] *)
Definition gt_zero (v : value) : completion bool :=
  match v with
  | VUndef | VNull => Normal false
  | VBool b => Normal b
  | VNum z => Normal (0 <? z)%Z
  | VStr s => Normal (StringToNumber_gt0 s)
  | VArr _ => andThen (ToString v) (fun s => Normal (StringToNumber_gt0 s))
  | VObj props =>
      if has_own "toString" props then Throw NotPrimitive
      else Normal false
  end.

End Relational.

End JS.

Import JS.

Notation "c >>= f" := (andThen c f) (at level 50, left associativity).

(* ================================================================= *)
(** ** The host interface: [@actions/core] *)

(** One constructor per function of [core] that [run] calls.  [setFailed]
    marks the job as failed and gives the reason; [setOutput] publishes a
    named value to later steps; the other four write a line to the log. *)
Inductive call : Type :=
| info (message : string)
| debug (message : string)
| warning (message : string)
| error (message : string)
| setOutput (name value : string)
| setFailed (message : string).

(** A piece of [run]: the calls it makes, in order, and how it ends. *)
Definition Action (A : Type) : Type := (list call * completion A)%type.

Definition ret {A} (a : A) : Action A := ([], Normal a).

Definition bind {A B} (m : Action A) (f : A -> Action B) : Action B :=
  match snd m with
  | Normal a => let r := f a in ((fst m ++ fst r)%list, snd r)
  | Throw e => (fst m, Throw e)
  end.

(** Evaluating an expression makes no call. *)
Definition eval {A} (c : completion A) : Action A := ([], c).

Definition core (c : call) : Action unit := ([c], Normal tt).

Notation "x <- m ;; k" := (bind m (fun x => k))
  (at level 61, m at next level, right associativity).
Notation "m ;; k" := (bind m (fun _ => k))
  (at level 61, right associativity).

(** [if (c) { m }] *)
Definition when (c : bool) (m : Action unit) : Action unit :=
  if c then m else ret tt.

(** [a.forEach(f)] on the elements of an array. *)
Fixpoint forEach_elements (l : list value) (f : value -> Action unit) : Action unit :=
  match l with
  | [] => ret tt
  | x :: rest => f x ;; forEach_elements rest f
  end.

(** [v.forEach(f)]: only arrays have the method. *)
Definition forEach (v : value) (f : value -> Action unit) : Action unit :=
  match v with
  | VArr l => forEach_elements l f
  | VUndef | VNull => eval (Throw (NullishRead v "forEach"))
  | _ => eval (Throw (NotAFunction "forEach"))
  end.

(** [try { body } catch (error) { ... }] at the top of [run]: every fault
    of the model is an [Error], so the handler reports its message. *)
Definition try_catch (body : Action unit) : list call :=
  match snd body with
  | Normal _ => fst body
  | Throw e => (fst body ++ [setFailed (message e)])%list
  end.

(** *** What the host sees of a run *)

Inductive JobOutcome : Type :=
| Success
| Failure (message : string).

(** The job has failed as soon as [setFailed] was called; the reason is
    the message of the last such call. *)
Fixpoint outcome_from (acc : JobOutcome) (t : list call) : JobOutcome :=
  match t with
  | [] => acc
  | setFailed m :: rest => outcome_from (Failure m) rest
  | _ :: rest => outcome_from acc rest
  end.

Definition outcome (t : list call) : JobOutcome := outcome_from Success t.

(** The outputs set, in the order of the [setOutput] calls. *)
Fixpoint outputs (t : list call) : list (string * string) :=
  match t with
  | [] => []
  | setOutput n v :: rest => (n, v) :: outputs rest
  | _ :: rest => outputs rest
  end.

(** The value a later step reads for an output: the last one set. *)
Fixpoint lookup (name : string) (o : list (string * string)) : option string :=
  match o with
  | [] => None
  | (n, v) :: rest =>
      match lookup name rest with
      | Some w => Some w
      | None => if String.eqb name n then Some v else None
      end
  end.

Definition published (name : string) (t : list call) : option string :=
  lookup name (outputs t).

(** The calls that only write a line to the log. *)
Definition is_log (c : call) : bool :=
  match c with
  | setOutput _ _ | setFailed _ => false
  | _ => true
  end.

Definition is_setFailed (c : call) : bool :=
  match c with
  | setFailed _ => true
  | _ => false
  end.

(* ================================================================= *)
(** ** Inputs of a run *)

(** The action's inputs, as read by [core.getInput] and
    [core.getBooleanInput] at the top of [run]. *)
Record Inputs : Type := {
  agentCard : string;
  strict : bool;
  testLive : bool;
  skipSignature : bool;
  timeout : string;
  failOnWarnings : bool
}.

(** What [exec.exec('capiscio', args, options)] hands back: the exit code
    it returns and the text its two listeners accumulate. *)
Record Process : Type := {
  exitCode : Z;
  output : string;
  errorOutput : string
}.

(** [args.join(' ')] *)
Fixpoint join (sep : string) (l : list string) : string :=
  match l with
  | [] => ""
  | [x] => x
  | x :: rest => x ++ sep ++ join sep rest
  end.

(** The validator's argument list. *)
Definition args (i : Inputs) : list string :=
  (["validate"; agentCard i; "--json"]
     ++ (if strict i then ["--strict"] else [])
     ++ (if testLive i then ["--test-live"] else [])
     ++ (if skipSignature i then ["--skip-signature"] else [])
     ++ (if String.eqb (timeout i) "" then [] else ["--timeout"; timeout i]))%list.

(* ================================================================= *)
(** ** [run] of [src/index.ts] *)

Module IndexTs.

Section Run.

(** [JSON.parse]: [None] when it throws its [SyntaxError]. *)
Variable JSON_parse : string -> option value.
Variable StringToNumber_gt0 : string -> bool.

(** [(field?.length || 0)] *)
Definition length_or_zero (field : value) : completion value :=
  get_opt "length" field >>= (fun n => Normal (or_else n (VNum 0))).

(** Lines 80-83, "Set basic outputs". *)
Definition set_basic_outputs (result : value) : Action unit :=
  success <- eval (get "success" result) ;;
  core (setOutput "result" (if ToBoolean success then "passed" else "failed")) ;;
  errors <- eval (get "errors" result >>= length_or_zero >>= toString) ;;
  core (setOutput "error-count" errors) ;;
  warnings <- eval (get "warnings" result >>= length_or_zero >>= toString) ;;
  core (setOutput "warning-count" warnings).

(** [`  ${label}: ${score}/100 (${rating})`] *)
Definition score_line (label : string) (score rating : value) : completion string :=
  ToString score >>= (fun s =>
  ToString rating >>= (fun r =>
  Normal ("  " ++ label ++ ": " ++ s ++ "/100 (" ++ r ++ ")"))).

(** Lines 95-114, "Display scores". *)
Definition display_scores (result : value) : Action unit :=
  core (info "") ;;
  core (info "📊 Quality Scores:") ;;
  compliance <- eval (get "scoringResult" result >>= get "compliance") ;;
  when (ToBoolean compliance)
    (compScore <- eval (get "scoringResult" result >>= get "compliance" >>= get "total") ;;
     compRating <- eval (get "scoringResult" result >>= get "compliance" >>= get "rating") ;;
     line <- eval (score_line "Compliance" compScore compRating) ;;
     core (info line)) ;;
  trust <- eval (get "scoringResult" result >>= get "trust") ;;
  when (ToBoolean trust)
    (trustScore <- eval (get "scoringResult" result >>= get "trust" >>= get "total") ;;
     trustRating <- eval (get "scoringResult" result >>= get "trust" >>= get "rating") ;;
     line <- eval (score_line "Trust" trustScore trustRating) ;;
     core (info line)) ;;
  availability <- eval (get "scoringResult" result >>= get "availability") ;;
  tested <- (if ToBoolean availability
             then total <- eval (get "scoringResult" result >>= get "availability"
                                   >>= get "total") ;;
                  ret (is_not_null total)
             else ret false) ;;
  when tested
    (availScore <- eval (get "scoringResult" result >>= get "availability" >>= get "total") ;;
     availRating <- eval (get "scoringResult" result >>= get "availability" >>= get "rating") ;;
     line <- eval (score_line "Availability" availScore availRating) ;;
     core (info line)) ;;
  core (info "") ;;
  productionReady <- eval (get "scoringResult" result >>= get "productionReady") ;;
  core (info ("🎯 Production Ready: "
                ++ (if ToBoolean productionReady then "✅ YES" else "❌ NO"))).

(** Lines 85-121, "Set scoring outputs (handle undefined gracefully)". *)
Definition set_scoring_outputs (result : value) : Action unit :=
  scoringResult <- eval (get "scoringResult" result) ;;
  if ToBoolean scoringResult then
    compliance <- eval (get "scoringResult" result >>= get "compliance"
                          >>= get_opt "total" >>= toString_opt) ;;
    core (setOutput "compliance-score" (str_or compliance "0")) ;;
    trust <- eval (get "scoringResult" result >>= get "trust"
                     >>= get_opt "total" >>= toString_opt) ;;
    core (setOutput "trust-score" (str_or trust "0")) ;;
    availability <- eval (get "scoringResult" result >>= get "availability"
                            >>= get_opt "total" >>= toString_opt) ;;
    core (setOutput "availability-score" (str_or availability "not-tested")) ;;
    productionReady <- eval (get "scoringResult" result >>= get "productionReady"
                               >>= (fun p => toString (or_else p (VBool false)))) ;;
    core (setOutput "production-ready" productionReady) ;;
    display_scores result
  else
    core (setOutput "compliance-score" "N/A") ;;
    core (setOutput "trust-score" "N/A") ;;
    core (setOutput "availability-score" "N/A") ;;
    core (setOutput "production-ready" "false").

(** [`  - ${finding.message || finding}`] *)
Definition finding_line (finding : value) : completion string :=
  get "message" finding >>= (fun m =>
  ToString (or_else m finding) >>= (fun s =>
  Normal ("  - " ++ s))).

(** [field && field.length > 0] *)
Definition non_empty (field : value) : completion bool :=
  if ToBoolean field then get "length" field >>= gt_zero StringToNumber_gt0
  else Normal false.

(** Lines 123-130, "Display errors". *)
Definition display_errors (result : value) : Action unit :=
  shown <- eval (get "errors" result >>= non_empty) ;;
  when shown
    (core (info "") ;;
     n <- eval (get "errors" result >>= get "length" >>= ToString) ;;
     core (error ("❌ Found " ++ n ++ " error(s):")) ;;
     errors <- eval (get "errors" result) ;;
     forEach errors (fun err =>
       line <- eval (finding_line err) ;;
       core (error line))).

(** Lines 132-139, "Display warnings". *)
Definition display_warnings (result : value) : Action unit :=
  shown <- eval (get "warnings" result >>= non_empty) ;;
  when shown
    (core (info "") ;;
     n <- eval (get "warnings" result >>= get "length" >>= ToString) ;;
     core (warning ("⚠️  Found " ++ n ++ " warning(s):")) ;;
     warnings <- eval (get "warnings" result) ;;
     forEach warnings (fun warn =>
       line <- eval (finding_line warn) ;;
       core (warning line))).

(** Lines 141-150, "Determine if action should fail". *)
Definition determine_failure (failOnWarnings : bool) (result : value) : Action unit :=
  success <- eval (get "success" result) ;;
  if negb (ToBoolean success) then
    errorCount <- eval (get "errors" result >>= length_or_zero) ;;
    n <- eval (ToString errorCount) ;;
    core (setFailed ("Validation failed with " ++ n ++ " error(s)"))
  else
    policy <- (if failOnWarnings
               then eval (get "warnings" result >>= non_empty)
               else ret false) ;;
    if policy then
      n <- eval (get "warnings" result >>= get "length" >>= ToString) ;;
      core (setFailed ("Validation passed but found " ++ n
                         ++ " warning(s) (fail-on-warnings enabled)"))
    else
      core (info "") ;;
      core (info "✅ Validation passed!").

(** Lines 80-150: everything [run] does with a parsed document. *)
Definition interpret (failOnWarnings : bool) (result : value) : Action unit :=
  set_basic_outputs result ;;
  set_scoring_outputs result ;;
  display_errors result ;;
  display_warnings result ;;
  determine_failure failOnWarnings result.

(** Lines 67-78: the [catch] around [JSON.parse]. *)
Definition parse_failed (p : Process) : Action unit :=
  core (error "Failed to parse validation output as JSON") ;;
  core (error ("Raw output: " ++ output p)) ;;
  core (error ("Error output: " ++ errorOutput p)) ;;
  core (setFailed ("Validation failed with exit code " ++ Number_toString (exitCode p))).

(** [run], from the point where the inputs are read, the validator is
    installed and [exec.exec] has returned [p]. *)
Definition run (i : Inputs) (p : Process) : list call :=
  try_catch
    (core (info ("🚀 Validating A2A agent card: " ++ agentCard i)) ;;
     core (info "📦 Installing capiscio-cli@2.0.0...") ;;
     core (info ("🔍 Running: capiscio " ++ join " " (args i))) ;;
     when (negb (String.eqb (output p) ""))
       (core (debug ("CLI Output: " ++ output p))) ;;
     when (negb (String.eqb (errorOutput p) ""))
       (core (debug ("CLI Error Output: " ++ errorOutput p))) ;;
     match JSON_parse (output p) with
     | None => parse_failed p
     | Some result => interpret (failOnWarnings i) result
     end).

End Run.

End IndexTs.

(* ================================================================= *)
(** ** [run] of the variant for the [valid] / [score] schema *)

Module Legacy.

Section Run.

Variable JSON_parse : string -> option value.
Variable StringToNumber_gt0 : string -> bool.

(** Lines 68-71, "Set outputs". *)
Definition set_outputs (result : value) : Action unit :=
  valid <- eval (get "valid" result) ;;
  core (setOutput "result" (if ToBoolean valid then "passed" else "failed")) ;;
  errors <- eval (get "errors" result >>= get "length" >>= toString) ;;
  core (setOutput "error-count" errors) ;;
  warnings <- eval (get "warnings" result >>= get "length" >>= toString) ;;
  core (setOutput "warning-count" warnings).

(** [`  ${label}: ${result.scoringResult[dimension].score}/100
       (${result.scoringResult[dimension].rating})`] *)
Definition score_line (label dimension : string) (result : value) : completion string :=
  get "scoringResult" result >>= get dimension >>= get "score" >>= ToString >>= (fun s =>
  get "scoringResult" result >>= get dimension >>= get "rating" >>= ToString >>= (fun r =>
  Normal ("  " ++ label ++ ": " ++ s ++ "/100 (" ++ r ++ ")"))).

(** Lines 84-93, "Display scores". *)
Definition display_scores (result : value) : Action unit :=
  core (info "") ;;
  core (info "📊 Quality Scores:") ;;
  line <- eval (score_line "Compliance" "compliance" result) ;;
  core (info line) ;;
  line <- eval (score_line "Trust" "trust" result) ;;
  core (info line) ;;
  availability <- eval (get "scoringResult" result >>= get "availability") ;;
  when (ToBoolean availability)
    (line <- eval (score_line "Availability" "availability" result) ;;
     core (info line)) ;;
  core (info "") ;;
  productionReady <- eval (get "scoringResult" result >>= get "productionReady") ;;
  core (info ("🎯 Production Ready: "
                ++ (if ToBoolean productionReady then "✅ YES" else "❌ NO"))).

(** Lines 73-94: the scoring outputs; there is no [else]. *)
Definition set_scoring_outputs (result : value) : Action unit :=
  scoringResult <- eval (get "scoringResult" result) ;;
  when (ToBoolean scoringResult)
    (compliance <- eval (get "scoringResult" result >>= get "compliance"
                           >>= get "score" >>= toString) ;;
     core (setOutput "compliance-score" compliance) ;;
     trust <- eval (get "scoringResult" result >>= get "trust"
                      >>= get "score" >>= toString) ;;
     core (setOutput "trust-score" trust) ;;
     availability <- eval (get "scoringResult" result >>= get "availability") ;;
     score <- (if ToBoolean availability
               then eval (get "scoringResult" result >>= get "availability"
                            >>= get "score" >>= toString)
               else ret "not-tested") ;;
     core (setOutput "availability-score" score) ;;
     productionReady <- eval (get "scoringResult" result >>= get "productionReady"
                                >>= toString) ;;
     core (setOutput "production-ready" productionReady) ;;
     display_scores result).

(** [`  - ${finding.message}`] *)
Definition finding_line (finding : value) : completion string :=
  get "message" finding >>= ToString >>= (fun s => Normal ("  - " ++ s)).

(** Lines 96-103, "Display errors". *)
Definition display_errors (result : value) : Action unit :=
  shown <- eval (get "errors" result >>= get "length" >>= gt_zero StringToNumber_gt0) ;;
  when shown
    (core (info "") ;;
     n <- eval (get "errors" result >>= get "length" >>= ToString) ;;
     core (error ("❌ Found " ++ n ++ " error(s):")) ;;
     errors <- eval (get "errors" result) ;;
     forEach errors (fun err =>
       line <- eval (finding_line err) ;;
       core (error line))).

(** Lines 105-112, "Display warnings". *)
Definition display_warnings (result : value) : Action unit :=
  shown <- eval (get "warnings" result >>= get "length" >>= gt_zero StringToNumber_gt0) ;;
  when shown
    (core (info "") ;;
     n <- eval (get "warnings" result >>= get "length" >>= ToString) ;;
     core (warning ("⚠️  Found " ++ n ++ " warning(s):")) ;;
     warnings <- eval (get "warnings" result) ;;
     forEach warnings (fun warn =>
       line <- eval (finding_line warn) ;;
       core (warning line))).

(** Lines 114-122, "Determine if action should fail". *)
Definition determine_failure (failOnWarnings : bool) (result : value) : Action unit :=
  valid <- eval (get "valid" result) ;;
  if negb (ToBoolean valid) then
    n <- eval (get "errors" result >>= get "length" >>= ToString) ;;
    core (setFailed ("Validation failed with " ++ n ++ " error(s)"))
  else
    policy <- (if failOnWarnings
               then eval (get "warnings" result >>= get "length"
                            >>= gt_zero StringToNumber_gt0)
               else ret false) ;;
    if policy then
      n <- eval (get "warnings" result >>= get "length" >>= ToString) ;;
      core (setFailed ("Validation passed but found " ++ n
                         ++ " warning(s) (fail-on-warnings enabled)"))
    else
      core (info "") ;;
      core (info "✅ Validation passed!").

(** Lines 68-122: everything [run] does with a parsed document. *)
Definition interpret (failOnWarnings : bool) (result : value) : Action unit :=
  set_outputs result ;;
  set_scoring_outputs result ;;
  display_errors result ;;
  display_warnings result ;;
  determine_failure failOnWarnings result.

(** Lines 59-66: the [catch] around [JSON.parse]. *)
Definition parse_failed (p : Process) : Action unit :=
  core (setFailed ("Failed to parse validation output: " ++ output p)).

(** [run], from the point where [exec.exec] has returned [p]. *)
Definition run (i : Inputs) (p : Process) : list call :=
  try_catch
    (core (info ("🚀 Validating A2A agent card: " ++ agentCard i)) ;;
     core (info "📦 Installing capiscio-cli@2.0.0...") ;;
     core (info ("🔍 Running: capiscio " ++ join " " (args i))) ;;
     match JSON_parse (output p) with
     | None => parse_failed p
     | Some result => interpret (failOnWarnings i) result
     end).

End Run.

End Legacy.

(* ================================================================= *)
(** ** A reference parser for concrete documents *)

(** [run] is embedded over any [JSON_parse].  To evaluate it on concrete
    texts, [Fragment.JSON_parse] implements [JSON.parse] on the texts whose
    numbers are integers and whose strings have no escape sequence; it
    answers [None] on every other text, well formed or not. *)
Module Fragment.

Definition is_whitespace (c : ascii) : bool :=
  let n := N_of_ascii c in
  ((n =? 32) || (n =? 9) || (n =? 10) || (n =? 13))%N.

Fixpoint skip_whitespace (s : string) : string :=
  match s with
  | String c rest => if is_whitespace c then skip_whitespace rest else s
  | EmptyString => s
  end.

Definition digit (c : ascii) : option Z :=
  let n := N_of_ascii c in
  if ((48 <=? n) && (n <=? 57))%N then Some (Z.of_N (n - 48)) else None.

Fixpoint digits (acc : Z) (s : string) : Z * string :=
  match s with
  | String c rest =>
      match digit c with
      | Some d => digits (10 * acc + d) rest
      | None => (acc, s)
      end
  | EmptyString => (acc, s)
  end.

(** After an integer, a fraction or an exponent would start here. *)
Definition ends_number (s : string) : bool :=
  match s with
  | String c _ =>
      negb (Ascii.eqb c "." || Ascii.eqb c "e" || Ascii.eqb c "E")
  | EmptyString => true
  end.

(** [0] or a non-zero digit followed by digits. *)
Definition natural (s : string) : option (Z * string) :=
  match s with
  | String c rest =>
      match digit c with
      | Some 0%Z =>
          match rest with
          | String c' _ =>
              match digit c' with Some _ => None | None => Some (0%Z, rest) end
          | EmptyString => Some (0%Z, rest)
          end
      | Some d => Some (digits d rest)
      | None => None
      end
  | EmptyString => None
  end.

Definition number (s : string) : option (Z * string) :=
  let signed (sign : Z) (s : string) :=
    match natural s with
    | Some (n, rest) => if ends_number rest then Some ((sign * n)%Z, rest) else None
    | None => None
    end in
  match s with
  | String "-" rest => signed (-1)%Z rest
  | _ => signed 1%Z s
  end.

Definition quote : ascii := ascii_of_nat 34.
Definition backslash : ascii := ascii_of_nat 92.

(** The characters of a string up to its closing quote. *)
Fixpoint characters (s : string) : option (string * string) :=
  match s with
  | String c rest =>
      if Ascii.eqb c quote then Some (EmptyString, rest)
      else if Ascii.eqb c backslash then None
      else if (N_of_ascii c <? 32)%N then None
      else match characters rest with
           | Some (body, rest') => Some (String c body, rest')
           | None => None
           end
  | EmptyString => None
  end.

Definition literal (word : string) (v : value) (s : string) : option (value * string) :=
  if String.prefix word s
  then Some (v, String.substring (String.length word) (String.length s - String.length word) s)
  else None.

Fixpoint element (fuel : nat) (s : string) : option (value * string) :=
  match fuel with
  | O => None
  | S fuel' =>
      match skip_whitespace s with
      | String c rest =>
          if Ascii.eqb c quote then
            match characters rest with
            | Some (body, rest') => Some (VStr body, rest')
            | None => None
            end
          else if Ascii.eqb c "[" then
            match skip_whitespace rest with
            | String "]" rest' => Some (VArr [], rest')
            | _ =>
                match elements fuel' rest with
                | Some (l, rest') => Some (VArr l, rest')
                | None => None
                end
            end
          else if Ascii.eqb c "{" then
            match skip_whitespace rest with
            | String "}" rest' => Some (VObj [], rest')
            | _ =>
                match members fuel' rest with
                | Some (l, rest') => Some (VObj l, rest')
                | None => None
                end
            end
          else if Ascii.eqb c "n" then literal "null" VNull (String c rest)
          else if Ascii.eqb c "t" then literal "true" (VBool true) (String c rest)
          else if Ascii.eqb c "f" then literal "false" (VBool false) (String c rest)
          else
            match number (String c rest) with
            | Some (z, rest') => Some (VNum z, rest')
            | None => None
            end
      | EmptyString => None
      end
  end

with elements (fuel : nat) (s : string) : option (list value * string) :=
  match fuel with
  | O => None
  | S fuel' =>
      match element fuel' s with
      | Some (v, rest) =>
          match skip_whitespace rest with
          | String "," rest' =>
              match elements fuel' rest' with
              | Some (l, rest'') => Some (v :: l, rest'')
              | None => None
              end
          | String "]" rest' => Some ([v], rest')
          | _ => None
          end
      | None => None
      end
  end

with members (fuel : nat) (s : string) : option (list (string * value) * string) :=
  match fuel with
  | O => None
  | S fuel' =>
      match skip_whitespace s with
      | String c rest =>
          if Ascii.eqb c quote then
            match characters rest with
            | Some (key, rest') =>
                match skip_whitespace rest' with
                | String ":" rest'' =>
                    match element fuel' rest'' with
                    | Some (v, rest3) =>
                        match skip_whitespace rest3 with
                        | String "," rest4 =>
                            match members fuel' rest4 with
                            | Some (l, rest5) => Some ((key, v) :: l, rest5)
                            | None => None
                            end
                        | String "}" rest4 => Some ([(key, v)], rest4)
                        | _ => None
                        end
                    | None => None
                    end
                | _ => None
                end
            | None => None
            end
          else None
      | EmptyString => None
      end
  end.

Definition JSON_parse (text : string) : option value :=
  match element (2 * String.length text + 2) text with
  | Some (v, rest) =>
      match skip_whitespace rest with
      | EmptyString => Some v
      | _ => None
      end
  | None => None
  end.

(** [ToNumber s > 0] on strings of decimal digits; every other string is
    read as not a number, for which the comparison is false. *)
Definition StringToNumber_gt0 (s : string) : bool :=
  match s with
  | EmptyString => false
  | _ =>
      match digits 0 s with
      | (z, EmptyString) => (0 <? z)%Z
      | _ => false
      end
  end.

End Fragment.

(* ================================================================= *)
(** ** Documents of the declared shape *)

(** The two sources declare an interface [ValidationResult] for what the
    validator prints.  The predicates below decide whether a parsed value
    has that shape; they are what "a parsed ValidationResult" means in the
    statements that follow. *)

Definition is_boolean (v : value) : bool :=
  match v with VBool _ => true | _ => false end.

Definition is_number (v : value) : bool :=
  match v with VNum _ => true | _ => false end.

Definition is_string (v : value) : bool :=
  match v with VStr _ => true | _ => false end.

(** A field that may be missing or [null]. *)
Definition optional (shape : value -> bool) (v : value) : bool :=
  match v with
  | VUndef | VNull => true
  | _ => shape v
  end.

Definition is_array_of (shape : value -> bool) (v : value) : bool :=
  match v with
  | VArr l => forallb shape l
  | _ => false
  end.

(** A finding is a bare string or an object with a [message] string.  An
    object whose message is empty is displayed through its own
    conversion to a string, which must then be the inherited one. *)
Definition is_Finding (v : value) : bool :=
  match v with
  | VStr _ => true
  | VObj props =>
      match prop "message" props with
      | VStr m => negb (String.eqb m "") || negb (has_own "toString" props)
      | _ => false
      end
  | _ => false
  end.

Module IndexTsShape.

(** [{ total: number | null; rating: string | null }] *)
Definition is_ScoreDimension (v : value) : bool :=
  match v with
  | VObj props =>
      optional is_number (prop "total" props)
      && optional is_string (prop "rating" props)
  | _ => false
  end.

Definition is_ScoringResult (v : value) : bool :=
  match v with
  | VObj props =>
      optional is_ScoreDimension (prop "compliance" props)
      && optional is_ScoreDimension (prop "trust" props)
      && optional is_ScoreDimension (prop "availability" props)
      && optional is_boolean (prop "productionReady" props)
  | _ => false
  end.

(** The interface of [src/index.ts], lines 4-14, with every field allowed
    to be missing, as [run] allows. *)
Definition is_ValidationResult (v : value) : bool :=
  match v with
  | VObj props =>
      optional is_boolean (prop "success" props)
      && optional (is_array_of is_Finding) (prop "errors" props)
      && optional (is_array_of is_Finding) (prop "warnings" props)
      && optional is_ScoringResult (prop "scoringResult" props)
  | _ => false
  end.

End IndexTsShape.

Module LegacyShape.

(** [{ score: number; rating: string }] *)
Definition is_ScoreDimension (v : value) : bool :=
  match v with
  | VObj props =>
      is_number (prop "score" props)
      && optional is_string (prop "rating" props)
  | _ => false
  end.

Definition is_ScoringResult (v : value) : bool :=
  match v with
  | VObj props =>
      is_ScoreDimension (prop "compliance" props)
      && is_ScoreDimension (prop "trust" props)
      && optional is_ScoreDimension (prop "availability" props)
      && is_boolean (prop "productionReady" props)
  | _ => false
  end.

(** The interface of the legacy variant, lines 4-14: [errors], [warnings]
    and the scores are required, as its [run] requires. *)
Definition is_ValidationResult (v : value) : bool :=
  match v with
  | VObj props =>
      optional is_boolean (prop "valid" props)
      && is_array_of is_Finding (prop "errors" props)
      && is_array_of is_Finding (prop "warnings" props)
      && optional is_ScoringResult (prop "scoringResult" props)
  | _ => false
  end.

End LegacyShape.

(** *** Vocabulary of the statements *)

(** The field [k] of a document; [undefined] when there is none. *)
Definition field (k : string) (result : value) : value :=
  match result with
  | VObj props => prop k props
  | _ => VUndef
  end.

(** The sequence held by an [errors] or [warnings] field. *)
Definition findings (v : value) : list value :=
  match v with
  | VArr l => l
  | _ => []
  end.

(** The number a score dimension holds under the name [k]. *)
Definition dimension_value (k : string) (dimension : value) : option Z :=
  match field k dimension with
  | VNum z => Some z
  | _ => None
  end.


(** The text set for a score: the number's, or [default] without one. *)
Definition score_text (k default : string) (dimension : value) : string :=
  match dimension_value k dimension with
  | Some z => Number_toString z
  | None => default
  end.

(** The text of a count, [n.toString()]. *)
Definition count_text {A} (l : list A) : string :=
  Number_toString (Z.of_nat (List.length l)).

(** The reason given when the validator reports failure. *)
Definition semantic_failure (errorCount : string) : string :=
  "Validation failed with " ++ errorCount ++ " error(s)".

(** The reason given when only the warnings policy fails the job. *)
Definition policy_failure (warningCount : string) : string :=
  "Validation passed but found " ++ warningCount
    ++ " warning(s) (fail-on-warnings enabled)".

Definition is_failure (o : JobOutcome) : bool :=
  match o with Failure _ => true | Success => false end.

(** The pass/fail indicator a document carries under [key]:
    [result[key] ? true : false], and [false] when there is nothing to
    read it from. *)
Definition reports_pass (key : string) (result : value) : bool :=
  match get key result with
  | Normal v => ToBoolean v
  | Throw _ => false
  end.

(** [needle] occurs in [s]. *)
Fixpoint occurs_in (needle s : string) : bool :=
  String.prefix needle s
  || match s with
     | String _ rest => occurs_in needle rest
     | EmptyString => false
     end.

(** What [run] writes before it parses. *)
Definition preamble (i : Inputs) : list call :=
  [ info ("🚀 Validating A2A agent card: " ++ agentCard i);
    info "📦 Installing capiscio-cli@2.0.0...";
    info ("🔍 Running: capiscio " ++ join " " (args i)) ].

Definition raw_output (p : Process) : list call :=
  ((if String.eqb (output p) "" then [] else [debug ("CLI Output: " ++ output p)])
   ++ (if String.eqb (errorOutput p) "" then []
       else [debug ("CLI Error Output: " ++ errorOutput p)]))%list.

(** [text] occurs in the message of some call, at any level. *)
Definition reported (text : string) (t : list call) : bool :=
  existsb (fun c =>
             match c with
             | info m | debug m | warning m | error m | setFailed m => occurs_in text m
             | setOutput _ _ => false
             end) t.

(** What the specification promises of a run whose output does not
    parse: a failure reason starting with the fixed text, no output, and
    the two raw streams in the log. *)
Definition parse_failure_as_specified (p : Process) (t : list call) : Prop :=
  (exists detail, outcome t = Failure ("Failed to parse validation output" ++ detail))
  /\ outputs t = []
  /\ reported (output p) t = true
  /\ reported (errorOutput p) t = true.

(** Two runs that agree on the [result] output and on the outcome. *)
Definition same_verdict (t t' : list call) : Prop :=
  published "result" t = published "result" t' /\ outcome t = outcome t'.

(** *** Vocabulary of the further properties *)

(** The seven outputs the action declares, in the order [run] sets them. *)
Definition output_names : list string :=
  [ "result"; "error-count"; "warning-count";
    "compliance-score"; "trust-score"; "availability-score"; "production-ready" ].

(** Every call of a piece of [run] satisfies [P]. *)
Definition calls_only (P : call -> bool) {A} (m : Action A) : Prop :=
  forallb P (fst m) = true.

(** A call that neither fails the job nor sets an undeclared output. *)
Definition ordinary (c : call) : bool :=
  match c with
  | setFailed _ => false
  | setOutput n _ => existsb (String.eqb n) output_names
  | _ => true
  end.

(** A call that leaves the output [name] as it is. *)
Definition leaves (name : string) (c : call) : bool :=
  match c with
  | setOutput n _ => negb (String.eqb n name)
  | _ => true
  end.

(** The two lines that close a passing run. *)
Definition pass_lines : list call := [info ""; info "✅ Validation passed!"].

(** A list of calls that ends with its verdict: ordinary calls, then
    either one [setFailed] or the two closing lines of a passing run. *)
Definition verdict (t : list call) : Prop :=
  exists before last,
    t = (before ++ last)%list
    /\ forallb ordinary before = true
    /\ ((exists reason, last = [setFailed reason]) \/ last = pass_lines).

(** The same, read off the outcome: the last call is the only
    [setFailed] and the job failed for its reason, or the list ends with
    the closing lines, holds no [setFailed], and the job succeeded. *)
Definition one_verdict (t : list call) : Prop :=
  (exists before reason,
     t = (before ++ [setFailed reason])%list
     /\ existsb is_setFailed before = false
     /\ outcome t = Failure reason)
  \/ (exists before,
        t = (before ++ pass_lines)%list
        /\ existsb is_setFailed before = false
        /\ outcome t = Success).

(** What [src/index.ts] prints for a finding: [finding.message || finding]. *)
Definition finding_text (v : value) : string :=
  match v with
  | VStr s => s
  | VObj props =>
      match prop "message" props with
      | VStr m => if String.eqb m "" then "[object Object]" else m
      | _ => "[object Object]"
      end
  | _ => ""
  end.

(** What the legacy variant prints for a finding: [finding.message]. *)
Definition legacy_finding_text (v : value) : string :=
  match v with
  | VObj props =>
      match prop "message" props with
      | VStr m => m
      | _ => "undefined"
      end
  | _ => "undefined"
  end.

(* ================================================================= *)
(** ** Sample runs *)

(** Documents are written with single quotes for readability; [json]
    puts the double quotes of JSON in their place. *)
Fixpoint json (s : string) : string :=
  match s with
  | String c rest =>
      String (if Ascii.eqb c "'" then Fragment.quote else c) (json rest)
  | EmptyString => EmptyString
  end.

Definition sample_inputs (failOnWarnings : bool) : Inputs :=
  {| agentCard := "./agent-card.json";
     strict := false;
     testLive := false;
     skipSignature := false;
     timeout := "";
     failOnWarnings := failOnWarnings |}.

Definition printed (code : Z) (stdout stderr : string) : Process :=
  {| exitCode := code; output := stdout; errorOutput := stderr |}.

(** [run] of [src/index.ts] and of the legacy variant over the reference
    parser. *)
Definition run_index : Inputs -> Process -> list call :=
  IndexTs.run Fragment.JSON_parse Fragment.StringToNumber_gt0.

Definition run_legacy : Inputs -> Process -> list call :=
  Legacy.run Fragment.JSON_parse Fragment.StringToNumber_gt0.

Definition unparseable : Process := printed 1 "not json" "boom".

Definition failing_document : string :=
  json "{ 'success': false, 'valid': false, 'errors': [{'message':'missing field X'}], 'warnings': [] }".

Definition success_only : string :=
  json "{ 'success': true, 'errors': [], 'warnings': [] }".

Definition valid_only : string :=
  json "{ 'valid': true, 'errors': [], 'warnings': [] }".

Definition warned_document : string :=
  json "{ 'success': true, 'valid': true, 'errors': [], 'warnings': [{'message':'deprecated field'}] }".

Definition valid_bare : string :=
  json "{ 'valid': true }".

Definition valid_without_warnings : string :=
  json "{ 'valid': true, 'errors': [] }".

Definition bare_document : string :=
  json "{ 'success': true }".

Definition scored_by_total : string :=
  json "{ 'success': true, 'valid': true, 'errors': [], 'warnings': [], 'scoringResult': { 'compliance': {'total':90,'rating':'A'}, 'trust': {'total':85,'rating':'B'}, 'availability': null, 'productionReady': true } }".

Definition scored_by_score : string :=
  json "{ 'success': true, 'valid': true, 'errors': [], 'warnings': [], 'scoringResult': { 'compliance': {'score':90,'rating':'A'}, 'trust': {'score':85,'rating':'B'}, 'availability': null, 'productionReady': true } }".

Definition failing_with_warning : string :=
  json "{ 'success': false, 'valid': false, 'errors': ['first', {'message':'second'}], 'warnings': [{'message':'deprecated field'}] }".

Definition object_for_errors : string :=
  json "{ 'success': false, 'errors': {'message':'missing field X'}, 'warnings': [] }".

Definition faulting_after_result : string :=
  json "{ 'success': true, 'errors': [null] }".

Definition unscored_dimensions : string :=
  json "{ 'success': true, 'errors': [], 'warnings': [], 'scoringResult': { 'compliance': {'rating':'A'}, 'productionReady': false } }".

(* ================================================================= *)
(** * Properties of the two engines *)

(** ** Sequencing *)

Lemma bind_eval_Normal {A B} (a : A) (f : A -> Action B) :
  bind (eval (Normal a)) f = f a.
Proof. unfold bind, eval; simpl. now destruct (f a). Qed.

Lemma bind_ret {A B} (a : A) (f : A -> Action B) : bind (ret a) f = f a.
Proof. apply bind_eval_Normal. Qed.

Lemma bind_core {B} (c : call) (f : unit -> Action B) :
  bind (core c) f = (c :: fst (f tt), snd (f tt)).
Proof. reflexivity. Qed.

Lemma bind_Normal {A B} (m : Action A) (f : A -> Action B) (a : A) :
  snd m = Normal a ->
  bind m f = ((fst m ++ fst (f a))%list, snd (f a)).
Proof. intros H. unfold bind. now rewrite H. Qed.

Lemma snd_bind {A B} (m : Action A) (f : A -> Action B) :
  snd (bind m f)
  = match snd m with
    | Normal a => snd (f a)
    | Throw e => Throw e
    end.
Proof. unfold bind. now destruct (snd m). Qed.

Lemma try_catch_bind (m k : Action unit) :
  snd m = Normal tt ->
  try_catch (m ;; k) = (fst m ++ try_catch k)%list.
Proof.
  intros H. rewrite (bind_Normal _ _ _ H). unfold try_catch; simpl.
  destruct (snd k); [reflexivity | now rewrite app_assoc].
Qed.

Lemma try_catch_Normal (m : Action unit) :
  snd m = Normal tt -> try_catch m = fst m.
Proof. intros H. unfold try_catch. now rewrite H. Qed.

(** ** Reading a list of calls *)

Lemma outputs_app (t u : list call) :
  outputs (t ++ u) = (outputs t ++ outputs u)%list.
Proof.
  induction t as [|c t IH]; simpl; [reflexivity|].
  destruct c; simpl; now rewrite ?IH.
Qed.

Lemma outcome_from_app (acc : JobOutcome) (t u : list call) :
  outcome_from acc (t ++ u) = outcome_from (outcome_from acc t) u.
Proof.
  revert acc. induction t as [|c t IH]; intros acc; simpl; [reflexivity|].
  destruct c; apply IH.
Qed.

(** Calls that only write to the log set no output and leave the state of
    the job alone. *)
Lemma only_log_outputs (t : list call) :
  forallb is_log t = true -> outputs t = [].
Proof.
  induction t as [|c t IH]; simpl; [reflexivity|].
  intros H. apply andb_prop in H as [Hc Ht].
  destruct c; simpl in Hc; try discriminate; auto.
Qed.

Lemma only_log_outcome (t : list call) (acc : JobOutcome) :
  forallb is_log t = true -> outcome_from acc t = acc.
Proof.
  induction t as [|c t IH]; simpl; [reflexivity|].
  intros H. apply andb_prop in H as [Hc Ht].
  destruct c; simpl in Hc; try discriminate; auto.
Qed.

Lemma no_setFailed_outcome (t : list call) (acc : JobOutcome) :
  existsb is_setFailed t = false -> outcome_from acc t = acc.
Proof.
  induction t as [|c t IH]; simpl; [reflexivity|].
  intros H. apply orb_false_elim in H as [Hc Ht].
  destruct c; simpl in Hc; try discriminate; auto.
Qed.

Lemma only_log_no_setFailed (t : list call) :
  forallb is_log t = true -> existsb is_setFailed t = false.
Proof.
  induction t as [|c t IH]; simpl; [reflexivity|].
  intros H. apply andb_prop in H as [Hc Ht].
  destruct c; simpl in Hc; try discriminate; auto.
Qed.

(** ** Pieces of [run] that only write to the log *)

Definition quiet {A} (m : Action A) : Prop := forallb is_log (fst m) = true.

Lemma quiet_eval {A} (c : completion A) : quiet (eval c).
Proof. reflexivity. Qed.

Lemma quiet_ret {A} (a : A) : quiet (ret a).
Proof. reflexivity. Qed.

Lemma quiet_core (c : call) : is_log c = true -> quiet (core c).
Proof. intros H. unfold quiet; simpl. now rewrite H. Qed.

Lemma quiet_bind {A B} (m : Action A) (f : A -> Action B) :
  quiet m -> (forall a, quiet (f a)) -> quiet (bind m f).
Proof.
  unfold quiet, bind. intros Hm Hf.
  destruct (snd m); simpl; [|assumption].
  rewrite forallb_app, Hm. apply Hf.
Qed.

Lemma quiet_when (c : bool) (m : Action unit) : quiet m -> quiet (when c m).
Proof. destruct c; simpl; [auto | intros _; apply quiet_ret]. Qed.

Lemma quiet_if {A} (c : bool) (m k : Action A) :
  quiet m -> quiet k -> quiet (if c then m else k).
Proof. now destruct c. Qed.

Lemma quiet_forEach_elements (l : list value) (f : value -> Action unit) :
  (forall x, quiet (f x)) -> quiet (forEach_elements l f).
Proof.
  intros Hf. induction l as [|x l IH]; simpl.
  - apply quiet_ret.
  - apply quiet_bind; auto.
Qed.

Lemma quiet_forEach (v : value) (f : value -> Action unit) :
  (forall x, quiet (f x)) -> quiet (forEach v f).
Proof.
  intros Hf. destruct v; simpl; try apply quiet_eval.
  now apply quiet_forEach_elements.
Qed.

Ltac quiet_steps :=
  repeat first
    [ apply quiet_eval
    | apply quiet_ret
    | apply quiet_core; reflexivity
    | apply quiet_when
    | apply quiet_if
    | apply quiet_forEach; intros ?
    | apply quiet_bind; [|intros ?] ].

Lemma IndexTs_display_errors_quiet gt0 (result : value) :
  quiet (IndexTs.display_errors gt0 result).
Proof. unfold IndexTs.display_errors. quiet_steps. Qed.

Lemma IndexTs_display_warnings_quiet gt0 (result : value) :
  quiet (IndexTs.display_warnings gt0 result).
Proof. unfold IndexTs.display_warnings. quiet_steps. Qed.

Lemma IndexTs_display_scores_quiet (result : value) :
  quiet (IndexTs.display_scores result).
Proof. unfold IndexTs.display_scores. quiet_steps. Qed.

Lemma Legacy_display_errors_quiet gt0 (result : value) :
  quiet (Legacy.display_errors gt0 result).
Proof. unfold Legacy.display_errors. quiet_steps. Qed.

Lemma Legacy_display_warnings_quiet gt0 (result : value) :
  quiet (Legacy.display_warnings gt0 result).
Proof. unfold Legacy.display_warnings. quiet_steps. Qed.

Lemma Legacy_display_scores_quiet (result : value) :
  quiet (Legacy.display_scores result).
Proof. unfold Legacy.display_scores. quiet_steps. Qed.

(** ** Pieces of [run] after which the job has failed *)

(** However [m] ends, by [setFailed] or by a fault that the handler of
    [run] reports, the job is failed afterwards. *)
Definition doomed (m : Action unit) : Prop :=
  forall acc, is_failure (outcome_from acc (try_catch m)) = true.

Lemma doomed_setFailed (msg : string) : doomed (core (setFailed msg)).
Proof. intros acc. reflexivity. Qed.

Lemma doomed_bind {A} (m : Action A) (f : A -> Action unit) :
  (forall a, snd m = Normal a -> doomed (f a)) -> doomed (bind m f).
Proof.
  intros H acc. unfold bind, try_catch.
  destruct (snd m) as [a|e] eqn:E; simpl.
  - specialize (H a eq_refl (outcome_from acc (fst m))).
    unfold try_catch in H.
    destruct (snd (f a)).
    + now rewrite outcome_from_app.
    + now rewrite <- app_assoc, outcome_from_app.
  - now rewrite outcome_from_app.
Qed.

Lemma doomed_after {A} (m : Action A) (k : Action unit) :
  doomed k -> doomed (bind m (fun _ => k)).
Proof. intros H. apply doomed_bind. auto. Qed.

Lemma IndexTs_determine_failure_doomed gt0 (failOnWarnings : bool) (result : value) :
  reports_pass "success" result = false ->
  doomed (IndexTs.determine_failure gt0 failOnWarnings result).
Proof.
  unfold reports_pass, IndexTs.determine_failure. intros H.
  apply doomed_bind. simpl. intros success E. rewrite E in H. rewrite H. simpl.
  apply doomed_bind. intros errorCount _.
  apply doomed_bind. intros n _. apply doomed_setFailed.
Qed.

Lemma Legacy_determine_failure_doomed gt0 (failOnWarnings : bool) (result : value) :
  reports_pass "valid" result = false ->
  doomed (Legacy.determine_failure gt0 failOnWarnings result).
Proof.
  unfold reports_pass, Legacy.determine_failure. intros H.
  apply doomed_bind. simpl. intros valid E. rewrite E in H. rewrite H. simpl.
  apply doomed_bind. intros n _. apply doomed_setFailed.
Qed.

Lemma IndexTs_run_doomed JSON_parse gt0 (i : Inputs) (p : Process) (result : value) :
  JSON_parse (output p) = Some result ->
  doomed (IndexTs.determine_failure gt0 (failOnWarnings i) result) ->
  is_failure (outcome (IndexTs.run JSON_parse gt0 i p)) = true.
Proof.
  intros Hparse H. unfold IndexTs.run, outcome. rewrite Hparse.
  unfold IndexTs.interpret. repeat apply doomed_after. exact H.
Qed.

Lemma Legacy_run_doomed JSON_parse gt0 (i : Inputs) (p : Process) (result : value) :
  JSON_parse (output p) = Some result ->
  doomed (Legacy.determine_failure gt0 (failOnWarnings i) result) ->
  is_failure (outcome (Legacy.run JSON_parse gt0 i p)) = true.
Proof.
  intros Hparse H. unfold Legacy.run, outcome. rewrite Hparse.
  unfold Legacy.interpret. repeat apply doomed_after. exact H.
Qed.

(** ** Values of the declared shape *)

Arguments prop : simpl never.
Arguments has_own : simpl never.
Arguments Number_toString : simpl never.

Lemma Number_toString_not_empty (z : Z) : String.eqb (Number_toString z) "" = false.
Proof.
  unfold Number_toString, NilZero.string_of_int, NilZero.string_of_uint.
  destruct (Z.to_int z) as [d|d]; destruct d; reflexivity.
Qed.

Lemma str_or_number (z : Z) (d : string) :
  str_or (Some (Number_toString z)) d = Number_toString z.
Proof. unfold str_or. now rewrite Number_toString_not_empty. Qed.

(** [(field?.length || 0).toString()] on a sequence, missing or not. *)
Lemma length_or_zero_text (v : value) :
  optional (is_array_of is_Finding) v = true ->
  IndexTs.length_or_zero v >>= toString = Normal (count_text (findings v)).
Proof.
  destruct v as [| | | | |l|]; simpl; try discriminate; try reflexivity.
  intros _. unfold IndexTs.length_or_zero, count_text; simpl.
  destruct l; reflexivity.
Qed.

Lemma length_or_zero_value (v : value) :
  optional (is_array_of is_Finding) v = true ->
  IndexTs.length_or_zero v = Normal (VNum (Z.of_nat (List.length (findings v)))).
Proof.
  destruct v as [| | | | |l|]; simpl; try discriminate; try reflexivity.
  intros _. unfold IndexTs.length_or_zero; simpl.
  destruct l; reflexivity.
Qed.

(** [dimension?.total?.toString()] *)
Lemma total_text (dimension : value) :
  optional IndexTsShape.is_ScoreDimension dimension = true ->
  get_opt "total" dimension >>= toString_opt
  = Normal (option_map Number_toString (dimension_value "total" dimension)).
Proof.
  unfold dimension_value.
  destruct dimension as [| | | | | |d]; simpl; try discriminate; try reflexivity.
  intros H. apply andb_prop in H as [Ht _].
  destruct (prop "total" d); simpl in *; try discriminate; reflexivity.
Qed.

Lemma str_or_total (o : option Z) (d : string) :
  str_or (option_map Number_toString o) d
  = match o with Some z => Number_toString z | None => d end.
Proof. destruct o; simpl; [apply str_or_number | reflexivity]. Qed.

(** A finding of the declared shape is displayed without fault. *)
Lemma finding_line_Normal (v : value) :
  is_Finding v = true -> exists line, IndexTs.finding_line v = Normal line.
Proof.
  unfold IndexTs.finding_line.
  destruct v as [| | | |s| |props]; simpl; try discriminate; intros H.
  - eexists. reflexivity.
  - destruct (prop "message" props) as [| | | |m| |]; try discriminate.
    unfold or_else; simpl.
    destruct (String.eqb m ""); simpl in *.
    + destruct (has_own "toString" props); [discriminate|]. eexists; reflexivity.
    + eexists; reflexivity.
Qed.

Lemma Legacy_finding_line_Normal (v : value) :
  is_Finding v = true -> exists line, Legacy.finding_line v = Normal line.
Proof.
  unfold Legacy.finding_line.
  destruct v as [| | | |s| |props]; simpl; try discriminate; intros H.
  - eexists. reflexivity.
  - destruct (prop "message" props) as [| | | |m| |]; try discriminate.
    eexists; reflexivity.
Qed.

(** Displaying a sequence of findings: one line each, no fault. *)
Lemma forEach_findings_Normal (l : list value) (line : value -> completion string)
      (level : string -> call) :
  (forall v, In v l -> exists s, line v = Normal s) ->
  snd (forEach_elements l (fun v => s <- eval (line v) ;; core (level s))) = Normal tt.
Proof.
  induction l as [|x l IH]; intros H; simpl; [reflexivity|].
  destruct (H x (or_introl eq_refl)) as [s Hs].
  rewrite Hs, bind_eval_Normal.
  unfold bind at 1; simpl. apply IH. intros v Hv. apply H. now right.
Qed.

(** ** [src/index.ts] on documents of the declared shape *)

Ltac split_shape H :=
  repeat match type of H with
         | (_ && _)%bool = true =>
             let H' := fresh H in apply andb_prop in H as [H H']
         end.

Lemma IndexTs_set_basic_outputs_shape (result : value) :
  IndexTsShape.is_ValidationResult result = true ->
  IndexTs.set_basic_outputs result
  = ([ setOutput "result" (if reports_pass "success" result then "passed" else "failed");
       setOutput "error-count" (count_text (findings (field "errors" result)));
       setOutput "warning-count" (count_text (findings (field "warnings" result))) ],
     Normal tt).
Proof.
  destruct result as [| | | | | |props]; try discriminate.
  intros H. simpl in H. split_shape H.
  unfold IndexTs.set_basic_outputs, reports_pass, field.
  cbn [get andThen].
  rewrite (length_or_zero_text _ H1), (length_or_zero_text _ H2).
  reflexivity.
Qed.

(** Without a scoring object, the [else] branch of lines 115-121. *)
Lemma IndexTs_set_scoring_outputs_absent (result : value) :
  ToBoolean (field "scoringResult" result) = false ->
  result <> VNull -> result <> VUndef ->
  IndexTs.set_scoring_outputs result
  = ([ setOutput "compliance-score" "N/A";
       setOutput "trust-score" "N/A";
       setOutput "availability-score" "N/A";
       setOutput "production-ready" "false" ], Normal tt).
Proof.
  intros H Hnull Hundef. unfold IndexTs.set_scoring_outputs.
  assert (E : get "scoringResult" result = Normal (field "scoringResult" result)).
  { destruct result; solve [reflexivity | congruence]. }
  rewrite E, bind_eval_Normal, H. reflexivity.
Qed.

Lemma score_line_Normal (label : string) (dimension : list (string * value)) :
  IndexTsShape.is_ScoreDimension (VObj dimension) = true ->
  exists line,
    IndexTs.score_line label (prop "total" dimension) (prop "rating" dimension)
    = Normal line.
Proof.
  simpl. intros H. split_shape H. unfold IndexTs.score_line.
  destruct (prop "total" dimension); try discriminate;
    destruct (prop "rating" dimension); try discriminate;
    eexists; reflexivity.
Qed.

Ltac snd_steps := repeat (rewrite snd_bind; cbn [snd core eval ret]).

(** One of the three "if the dimension is there, print it" blocks. *)
Lemma score_block_Normal (label : string) (dimension : value) (shown : bool) :
  optional IndexTsShape.is_ScoreDimension dimension = true ->
  (shown = true -> ToBoolean dimension = true) ->
  snd (when shown
         (score <- eval (get "total" dimension) ;;
          rating <- eval (get "rating" dimension) ;;
          line <- eval (IndexTs.score_line label score rating) ;;
          core (info line)))
  = Normal tt.
Proof.
  intros H Hshown. destruct shown; [|reflexivity].
  specialize (Hshown eq_refl).
  destruct dimension as [| | | | | |d]; try discriminate.
  destruct (score_line_Normal label d H) as [line Hline].
  cbn [when get]. rewrite !bind_eval_Normal, Hline. reflexivity.
Qed.

Lemma availability_tested (dimension : value) :
  optional IndexTsShape.is_ScoreDimension dimension = true ->
  exists tested,
    (if ToBoolean dimension
     then total <- eval (get "total" dimension) ;; ret (is_not_null total)
     else ret false) = ([], Normal tested)
    /\ (tested = true -> ToBoolean dimension = true).
Proof.
  intros H. destruct dimension as [| | | | | |d]; try discriminate;
    try (exists false; split; [reflexivity | discriminate]).
  simpl. eexists. split; [reflexivity | reflexivity].
Qed.

Lemma IndexTs_display_scores_Normal (props scoring : list (string * value)) :
  prop "scoringResult" props = VObj scoring ->
  IndexTsShape.is_ScoringResult (VObj scoring) = true ->
  snd (IndexTs.display_scores (VObj props)) = Normal tt.
Proof.
  intros E H. simpl in H. split_shape H.
  unfold IndexTs.display_scores. cbn [get andThen]. rewrite E. cbn [get andThen].
  snd_steps. rewrite (score_block_Normal "Compliance" _ _ H) by auto.
  snd_steps. rewrite (score_block_Normal "Trust" _ _ H2) by auto.
  snd_steps. destruct (availability_tested _ H1) as [tested [-> Htested]].
  cbn [snd]. snd_steps. rewrite (score_block_Normal "Availability" _ _ H1 Htested).
  reflexivity.
Qed.

(** [(productionReady || false).toString()] *)
Lemma production_ready_text (v : value) :
  optional is_boolean v = true ->
  toString (or_else v (VBool false)) = Normal (if ToBoolean v then "true" else "false").
Proof. destruct v as [| |[|]| | | |]; simpl; try discriminate; reflexivity. Qed.

(** With a scoring object, lines 86-114. *)
Lemma IndexTs_set_scoring_outputs_present (props scoring : list (string * value)) :
  prop "scoringResult" props = VObj scoring ->
  IndexTsShape.is_ScoringResult (VObj scoring) = true ->
  IndexTs.set_scoring_outputs (VObj props)
  = ([ setOutput "compliance-score" (score_text "total" "0" (prop "compliance" scoring));
       setOutput "trust-score" (score_text "total" "0" (prop "trust" scoring));
       setOutput "availability-score"
         (score_text "total" "not-tested" (prop "availability" scoring));
       setOutput "production-ready"
         (if ToBoolean (prop "productionReady" scoring) then "true" else "false") ]
       ++ fst (IndexTs.display_scores (VObj props)),
     Normal tt)%list.
Proof.
  intros E H. pose proof (IndexTs_display_scores_Normal _ _ E H) as Hdisplay.
  simpl in H. split_shape H.
  unfold IndexTs.set_scoring_outputs. cbn [get andThen]. rewrite E.
  cbn [get andThen ToBoolean]. rewrite bind_eval_Normal. cbn iota.
  rewrite (total_text _ H), (total_text _ H2), (total_text _ H1).
  rewrite (production_ready_text _ H0).
  repeat (first [rewrite bind_eval_Normal | rewrite bind_core]; cbn beta).
  cbn [fst snd]. rewrite !str_or_total, Hdisplay. reflexivity.
Qed.

Lemma findings_all_shown (l : list value) :
  forallb is_Finding l = true ->
  forall v, In v l -> exists s, IndexTs.finding_line v = Normal s.
Proof.
  intros H v Hv. apply finding_line_Normal.
  rewrite forallb_forall in H. now apply H.
Qed.

Lemma non_empty_sequence gt0 (v : value) :
  optional (is_array_of is_Finding) v = true ->
  IndexTs.non_empty gt0 v
  = Normal (match findings v with [] => false | _ => true end).
Proof.
  destruct v as [| | | | |l|]; simpl; try discriminate; try reflexivity.
  intros _. destruct l; reflexivity.
Qed.

Lemma IndexTs_display_errors_Normal gt0 (props : list (string * value)) :
  optional (is_array_of is_Finding) (prop "errors" props) = true ->
  snd (IndexTs.display_errors gt0 (VObj props)) = Normal tt.
Proof.
  intros H. unfold IndexTs.display_errors. cbn [get andThen].
  rewrite (non_empty_sequence gt0 _ H), bind_eval_Normal.
  destruct (prop "errors" props) as [| | | | |l|]; try discriminate; try reflexivity.
  destruct l as [|x l]; [reflexivity|].
  cbn [findings when ToString]. snd_steps.
  apply forEach_findings_Normal, findings_all_shown. exact H.
Qed.

Lemma IndexTs_display_warnings_Normal gt0 (props : list (string * value)) :
  optional (is_array_of is_Finding) (prop "warnings" props) = true ->
  snd (IndexTs.display_warnings gt0 (VObj props)) = Normal tt.
Proof.
  intros H. unfold IndexTs.display_warnings. cbn [get andThen].
  rewrite (non_empty_sequence gt0 _ H), bind_eval_Normal.
  destruct (prop "warnings" props) as [| | | | |l|]; try discriminate; try reflexivity.
  destruct l as [|x l]; [reflexivity|].
  cbn [findings when ToString]. snd_steps.
  apply forEach_findings_Normal, findings_all_shown. exact H.
Qed.

(** Lines 141-150 on a document of the declared shape. *)
Lemma IndexTs_determine_failure_shape gt0 (failOnWarnings : bool) (result : value) :
  IndexTsShape.is_ValidationResult result = true ->
  IndexTs.determine_failure gt0 failOnWarnings result
  = (if negb (reports_pass "success" result)
     then [setFailed (semantic_failure (count_text (findings (field "errors" result))))]
     else if failOnWarnings
               && match findings (field "warnings" result) with [] => false | _ => true end
          then [setFailed (policy_failure (count_text (findings (field "warnings" result))))]
          else [info ""; info "✅ Validation passed!"],
     Normal tt).
Proof.
  destruct result as [| | | | | |props]; try discriminate.
  intros H. simpl in H. split_shape H.
  unfold IndexTs.determine_failure, reports_pass, field. cbn [get andThen].
  rewrite bind_eval_Normal.
  destruct (negb (ToBoolean (prop "success" props))).
  - rewrite (length_or_zero_value _ H2), bind_eval_Normal. reflexivity.
  - destruct failOnWarnings; cbn [andb].
    + rewrite (non_empty_sequence gt0 _ H1), bind_eval_Normal.
      destruct (prop "warnings" props) as [| | | | |l|]; try discriminate;
        try reflexivity.
      destruct l; reflexivity.
    + reflexivity.
Qed.

(** ** The whole of [run] in [src/index.ts] *)

Lemma preamble_only_log (i : Inputs) : forallb is_log (preamble i) = true.
Proof. reflexivity. Qed.

Lemma raw_output_only_log (p : Process) : forallb is_log (raw_output p) = true.
Proof.
  unfold raw_output.
  destruct (String.eqb (output p) ""), (String.eqb (errorOutput p) ""); reflexivity.
Qed.

Lemma IndexTs_run_parsed JSON_parse gt0 (i : Inputs) (p : Process) (result : value) :
  JSON_parse (output p) = Some result ->
  IndexTs.run JSON_parse gt0 i p
  = (preamble i ++ raw_output p
       ++ try_catch (IndexTs.interpret gt0 (failOnWarnings i) result))%list.
Proof.
  intros Hparse. unfold IndexTs.run, raw_output. rewrite Hparse.
  repeat (rewrite try_catch_bind by reflexivity; cbn [fst core]).
  destruct (String.eqb (output p) ""), (String.eqb (errorOutput p) "");
    cbn [negb when];
    repeat (rewrite try_catch_bind by reflexivity; cbn [fst core ret]);
    reflexivity.
Qed.

Lemma IndexTs_run_unparsed JSON_parse gt0 (i : Inputs) (p : Process) :
  JSON_parse (output p) = None ->
  IndexTs.run JSON_parse gt0 i p
  = (preamble i ++ raw_output p
       ++ [ error "Failed to parse validation output as JSON";
            error ("Raw output: " ++ output p);
            error ("Error output: " ++ errorOutput p);
            setFailed ("Validation failed with exit code "
                         ++ Number_toString (exitCode p)) ])%list.
Proof.
  intros Hparse. unfold IndexTs.run, raw_output. rewrite Hparse.
  repeat (rewrite try_catch_bind by reflexivity; cbn [fst core]).
  destruct (String.eqb (output p) ""), (String.eqb (errorOutput p) "");
    cbn [negb when];
    repeat (rewrite try_catch_bind by reflexivity; cbn [fst core ret]);
    reflexivity.
Qed.

(** On a document of the declared shape no step of [interpret] faults. *)
Lemma IndexTs_interpret_shape gt0 (failOnWarnings : bool) (result : value) :
  IndexTsShape.is_ValidationResult result = true ->
  try_catch (IndexTs.interpret gt0 failOnWarnings result)
  = (fst (IndexTs.set_basic_outputs result)
       ++ fst (IndexTs.set_scoring_outputs result)
       ++ fst (IndexTs.display_errors gt0 result)
       ++ fst (IndexTs.display_warnings gt0 result)
       ++ fst (IndexTs.determine_failure gt0 failOnWarnings result))%list.
Proof.
  intros H. unfold IndexTs.interpret.
  assert (Hscoring : snd (IndexTs.set_scoring_outputs result) = Normal tt).
  { destruct result as [| | | | | |props]; try discriminate.
    pose proof H as H'. simpl in H'. split_shape H'.
    destruct (prop "scoringResult" props) as [| | | | | |scoring] eqn:E;
      try discriminate.
    - rewrite IndexTs_set_scoring_outputs_absent;
        [reflexivity | simpl; now rewrite E | discriminate | discriminate].
    - rewrite IndexTs_set_scoring_outputs_absent;
        [reflexivity | simpl; now rewrite E | discriminate | discriminate].
    - now rewrite (IndexTs_set_scoring_outputs_present _ _ E). }
  assert (Herrors : snd (IndexTs.display_errors gt0 result) = Normal tt).
  { destruct result as [| | | | | |props]; try discriminate.
    pose proof H as H'. simpl in H'. split_shape H'.
    now apply IndexTs_display_errors_Normal. }
  assert (Hwarnings : snd (IndexTs.display_warnings gt0 result) = Normal tt).
  { destruct result as [| | | | | |props]; try discriminate.
    pose proof H as H'. simpl in H'. split_shape H'.
    now apply IndexTs_display_warnings_Normal. }
  rewrite try_catch_bind by now rewrite IndexTs_set_basic_outputs_shape.
  rewrite try_catch_bind by assumption.
  rewrite try_catch_bind by assumption.
  rewrite try_catch_bind by assumption.
  rewrite try_catch_Normal by now rewrite IndexTs_determine_failure_shape.
  reflexivity.
Qed.

Lemma IndexTs_scoring_cases (props : list (string * value)) :
  IndexTsShape.is_ValidationResult (VObj props) = true ->
  ToBoolean (prop "scoringResult" props) = false
  \/ exists scoring,
       prop "scoringResult" props = VObj scoring
       /\ IndexTsShape.is_ScoringResult (VObj scoring) = true.
Proof.
  intros H. simpl in H. split_shape H.
  destruct (prop "scoringResult" props) as [| | | | | |scoring];
    try discriminate; [now left | now left | right; now exists scoring].
Qed.

Lemma IndexTs_set_scoring_outputs_no_setFailed (result : value) :
  IndexTsShape.is_ValidationResult result = true ->
  existsb is_setFailed (fst (IndexTs.set_scoring_outputs result)) = false.
Proof.
  intros H. destruct result as [| | | | | |props]; try discriminate.
  destruct (IndexTs_scoring_cases props H) as [E | [scoring [E Hs]]].
  - rewrite IndexTs_set_scoring_outputs_absent; [reflexivity | exact E | discriminate..].
  - rewrite (IndexTs_set_scoring_outputs_present _ _ E Hs). cbn [fst app existsb is_setFailed orb].
    apply only_log_no_setFailed, IndexTs_display_scores_quiet.
Qed.

Lemma IndexTs_determine_failure_outputs gt0 (failOnWarnings : bool) (result : value) :
  IndexTsShape.is_ValidationResult result = true ->
  outputs (fst (IndexTs.determine_failure gt0 failOnWarnings result)) = [].
Proof.
  intros H. rewrite (IndexTs_determine_failure_shape _ _ _ H). cbn [fst].
  destruct (negb _); [reflexivity|]. destruct (_ && _)%bool; reflexivity.
Qed.

(** The outputs of a run: the three basic ones, then the scoring ones. *)
Lemma IndexTs_run_outputs JSON_parse gt0 (i : Inputs) (p : Process) (result : value) :
  JSON_parse (output p) = Some result ->
  IndexTsShape.is_ValidationResult result = true ->
  outputs (IndexTs.run JSON_parse gt0 i p)
  = ([ ("result", if reports_pass "success" result then "passed" else "failed");
       ("error-count", count_text (findings (field "errors" result)));
       ("warning-count", count_text (findings (field "warnings" result))) ]
       ++ outputs (fst (IndexTs.set_scoring_outputs result)))%list.
Proof.
  intros Hparse H.
  rewrite (IndexTs_run_parsed _ _ _ _ _ Hparse), (IndexTs_interpret_shape _ _ _ H).
  rewrite !outputs_app.
  rewrite (only_log_outputs _ (preamble_only_log i)).
  rewrite (only_log_outputs _ (raw_output_only_log p)).
  rewrite (only_log_outputs _ (IndexTs_display_errors_quiet gt0 result)).
  rewrite (only_log_outputs _ (IndexTs_display_warnings_quiet gt0 result)).
  rewrite (IndexTs_determine_failure_outputs _ _ _ H).
  rewrite (IndexTs_set_basic_outputs_shape _ H).
  cbn [fst outputs app]. now rewrite !app_nil_r.
Qed.

(** The outcome of a run is decided by lines 141-150 alone. *)
Lemma IndexTs_run_outcome JSON_parse gt0 (i : Inputs) (p : Process) (result : value) :
  JSON_parse (output p) = Some result ->
  IndexTsShape.is_ValidationResult result = true ->
  outcome (IndexTs.run JSON_parse gt0 i p)
  = outcome (fst (IndexTs.determine_failure gt0 (failOnWarnings i) result)).
Proof.
  intros Hparse H. unfold outcome.
  rewrite (IndexTs_run_parsed _ _ _ _ _ Hparse), (IndexTs_interpret_shape _ _ _ H).
  rewrite !outcome_from_app.
  rewrite (only_log_outcome _ _ (preamble_only_log i)).
  rewrite (only_log_outcome _ _ (raw_output_only_log p)).
  rewrite (no_setFailed_outcome (fst (IndexTs.set_basic_outputs result)))
    by now rewrite (IndexTs_set_basic_outputs_shape _ H).
  rewrite (no_setFailed_outcome _ _ (IndexTs_set_scoring_outputs_no_setFailed _ H)).
  rewrite (only_log_outcome _ _ (IndexTs_display_errors_quiet gt0 result)).
  rewrite (only_log_outcome _ _ (IndexTs_display_warnings_quiet gt0 result)).
  reflexivity.
Qed.

(** ** The legacy variant on documents of its declared shape *)

Lemma Legacy_length_text (v : value) :
  is_array_of is_Finding v = true ->
  get "length" v >>= toString = Normal (count_text (findings v))
  /\ get "length" v >>= ToString = Normal (count_text (findings v)).
Proof.
  destruct v as [| | | | |l|]; simpl; try discriminate. intros _. now split.
Qed.

Lemma Legacy_non_empty gt0 (v : value) :
  is_array_of is_Finding v = true ->
  get "length" v >>= gt_zero gt0
  = Normal (match findings v with [] => false | _ => true end).
Proof.
  destruct v as [| | | | |l|]; simpl; try discriminate. intros _.
  destruct l; reflexivity.
Qed.

Lemma Legacy_set_outputs_shape (result : value) :
  LegacyShape.is_ValidationResult result = true ->
  Legacy.set_outputs result
  = ([ setOutput "result" (if reports_pass "valid" result then "passed" else "failed");
       setOutput "error-count" (count_text (findings (field "errors" result)));
       setOutput "warning-count" (count_text (findings (field "warnings" result))) ],
     Normal tt).
Proof.
  destruct result as [| | | | | |props]; try discriminate.
  intros H. simpl in H. split_shape H.
  unfold Legacy.set_outputs, reports_pass, field. cbn [get andThen].
  destruct (Legacy_length_text _ H1) as [-> _].
  destruct (Legacy_length_text _ H2) as [-> _].
  reflexivity.
Qed.

Lemma Legacy_score_line_Normal (label key : string)
      (props scoring dimension : list (string * value)) :
  prop "scoringResult" props = VObj scoring ->
  prop key scoring = VObj dimension ->
  LegacyShape.is_ScoreDimension (VObj dimension) = true ->
  exists line, Legacy.score_line label key (VObj props) = Normal line.
Proof.
  intros E Ek H. simpl in H. split_shape H.
  unfold Legacy.score_line. cbn [get andThen]. rewrite E. cbn [get andThen].
  rewrite Ek. cbn [get andThen].
  destruct (prop "score" dimension); try discriminate;
    destruct (prop "rating" dimension); try discriminate;
    eexists; reflexivity.
Qed.

Lemma Legacy_display_scores_Normal (props scoring : list (string * value)) :
  prop "scoringResult" props = VObj scoring ->
  LegacyShape.is_ScoringResult (VObj scoring) = true ->
  snd (Legacy.display_scores (VObj props)) = Normal tt.
Proof.
  intros E H. simpl in H. split_shape H.
  destruct (prop "compliance" scoring) as [| | | | | |compliance] eqn:Ec;
    try discriminate.
  destruct (prop "trust" scoring) as [| | | | | |trust] eqn:Et; try discriminate.
  destruct (Legacy_score_line_Normal "Compliance" _ _ _ _ E Ec H) as [lc Hc].
  destruct (Legacy_score_line_Normal "Trust" _ _ _ _ E Et H2) as [lt Ht].
  unfold Legacy.display_scores. rewrite Hc, Ht.
  cbn [get andThen]. rewrite E. cbn [get andThen].
  destruct (prop "availability" scoring) as [| | | | | |availability] eqn:Ea;
    try discriminate; try reflexivity.
  destruct (Legacy_score_line_Normal "Availability" _ _ _ _ E Ea H1) as [la Ha].
  cbn [ToBoolean when]. rewrite Ha. reflexivity.
Qed.

(** With a scoring object, lines 73-93. *)
Lemma Legacy_set_scoring_outputs_present (props scoring : list (string * value)) :
  prop "scoringResult" props = VObj scoring ->
  LegacyShape.is_ScoringResult (VObj scoring) = true ->
  exists compliance trust : Z,
    dimension_value "score" (prop "compliance" scoring) = Some compliance
    /\ dimension_value "score" (prop "trust" scoring) = Some trust
    /\ Legacy.set_scoring_outputs (VObj props)
       = ([ setOutput "compliance-score" (Number_toString compliance);
            setOutput "trust-score" (Number_toString trust);
            setOutput "availability-score"
              (score_text "score" "not-tested" (prop "availability" scoring));
            setOutput "production-ready"
              (if ToBoolean (prop "productionReady" scoring) then "true" else "false") ]
            ++ fst (Legacy.display_scores (VObj props)),
          Normal tt)%list.
Proof.
  intros E H. pose proof (Legacy_display_scores_Normal _ _ E H) as Hdisplay.
  simpl in H. split_shape H.
  unfold Legacy.set_scoring_outputs, dimension_value, score_text, dimension_value.
  cbn [get andThen]. rewrite E. cbn [get andThen ToBoolean when].
  rewrite bind_eval_Normal.
  destruct (prop "compliance" scoring) as [| | | | | |compliance]; try discriminate.
  destruct (prop "trust" scoring) as [| | | | | |trust]; try discriminate.
  simpl in H, H2. split_shape H. split_shape H2. cbn [get andThen field].
  destruct (prop "score" compliance) as [| | |zc| | |]; try discriminate.
  destruct (prop "score" trust) as [| | |zt| | |]; try discriminate.
  exists zc, zt. split; [reflexivity|]. split; [reflexivity|].
  destruct (prop "productionReady" scoring) as [| |b| | | |]; try discriminate.
  destruct (prop "availability" scoring) as [| | | | | |availability];
    try discriminate; cbn [ToBoolean get andThen field toString ToString].
  - repeat (first [rewrite bind_eval_Normal | rewrite bind_core | rewrite bind_ret];
            cbn beta).
    cbn [fst snd]. rewrite Hdisplay. reflexivity.
  - repeat (first [rewrite bind_eval_Normal | rewrite bind_core | rewrite bind_ret];
            cbn beta).
    cbn [fst snd]. rewrite Hdisplay. reflexivity.
  - simpl in H1. split_shape H1.
    destruct (prop "score" availability) as [| | |za| | |]; try discriminate.
    cbn [toString ToString].
    repeat (first [rewrite bind_eval_Normal | rewrite bind_core | rewrite bind_ret];
            cbn beta).
    cbn [fst snd]. rewrite Hdisplay. reflexivity.
Qed.

Lemma Legacy_findings_all_shown (l : list value) :
  forallb is_Finding l = true ->
  forall v, In v l -> exists s, Legacy.finding_line v = Normal s.
Proof.
  intros H v Hv. apply Legacy_finding_line_Normal.
  rewrite forallb_forall in H. now apply H.
Qed.

Lemma Legacy_display_errors_Normal gt0 (props : list (string * value)) :
  is_array_of is_Finding (prop "errors" props) = true ->
  snd (Legacy.display_errors gt0 (VObj props)) = Normal tt.
Proof.
  intros H. unfold Legacy.display_errors. cbn [get andThen].
  rewrite (Legacy_non_empty gt0 _ H), bind_eval_Normal.
  destruct (prop "errors" props) as [| | | | |l|]; try discriminate.
  destruct l as [|x l]; [reflexivity|].
  cbn [findings when get andThen ToString]. snd_steps.
  apply forEach_findings_Normal, Legacy_findings_all_shown. exact H.
Qed.

Lemma Legacy_display_warnings_Normal gt0 (props : list (string * value)) :
  is_array_of is_Finding (prop "warnings" props) = true ->
  snd (Legacy.display_warnings gt0 (VObj props)) = Normal tt.
Proof.
  intros H. unfold Legacy.display_warnings. cbn [get andThen].
  rewrite (Legacy_non_empty gt0 _ H), bind_eval_Normal.
  destruct (prop "warnings" props) as [| | | | |l|]; try discriminate.
  destruct l as [|x l]; [reflexivity|].
  cbn [findings when get andThen ToString]. snd_steps.
  apply forEach_findings_Normal, Legacy_findings_all_shown. exact H.
Qed.

(** Lines 114-122 on a document of the declared shape. *)
Lemma Legacy_determine_failure_shape gt0 (failOnWarnings : bool) (result : value) :
  LegacyShape.is_ValidationResult result = true ->
  Legacy.determine_failure gt0 failOnWarnings result
  = (if negb (reports_pass "valid" result)
     then [setFailed (semantic_failure (count_text (findings (field "errors" result))))]
     else if failOnWarnings
               && match findings (field "warnings" result) with [] => false | _ => true end
          then [setFailed (policy_failure (count_text (findings (field "warnings" result))))]
          else [info ""; info "✅ Validation passed!"],
     Normal tt).
Proof.
  destruct result as [| | | | | |props]; try discriminate.
  intros H. simpl in H. split_shape H.
  unfold Legacy.determine_failure, reports_pass, field. cbn [get andThen].
  rewrite bind_eval_Normal.
  destruct (Legacy_length_text _ H2) as [_ He].
  destruct (Legacy_length_text _ H1) as [_ Hw].
  destruct (negb (ToBoolean (prop "valid" props))).
  - rewrite He, bind_eval_Normal. reflexivity.
  - destruct failOnWarnings; cbn [andb].
    + rewrite (Legacy_non_empty gt0 _ H1), bind_eval_Normal.
      destruct (findings (prop "warnings" props)) eqn:E.
      * reflexivity.
      * rewrite Hw, bind_eval_Normal. reflexivity.
    + reflexivity.
Qed.

(** ** The whole of [run] in the legacy variant *)

Lemma Legacy_run_parsed JSON_parse gt0 (i : Inputs) (p : Process) (result : value) :
  JSON_parse (output p) = Some result ->
  Legacy.run JSON_parse gt0 i p
  = (preamble i ++ try_catch (Legacy.interpret gt0 (failOnWarnings i) result))%list.
Proof.
  intros Hparse. unfold Legacy.run. rewrite Hparse.
  repeat (rewrite try_catch_bind by reflexivity; cbn [fst core]).
  reflexivity.
Qed.

Lemma Legacy_run_unparsed JSON_parse gt0 (i : Inputs) (p : Process) :
  JSON_parse (output p) = None ->
  Legacy.run JSON_parse gt0 i p
  = (preamble i
       ++ [setFailed ("Failed to parse validation output: " ++ output p)])%list.
Proof. intros Hparse. unfold Legacy.run. rewrite Hparse. reflexivity. Qed.

Lemma Legacy_scoring_cases (props : list (string * value)) :
  LegacyShape.is_ValidationResult (VObj props) = true ->
  ToBoolean (prop "scoringResult" props) = false
  \/ exists scoring,
       prop "scoringResult" props = VObj scoring
       /\ LegacyShape.is_ScoringResult (VObj scoring) = true.
Proof.
  intros H. simpl in H. split_shape H.
  destruct (prop "scoringResult" props) as [| | | | | |scoring];
    try discriminate; [now left | now left | right; now exists scoring].
Qed.

(** Without a scoring object the legacy variant sets none of the four
    scoring outputs. *)
Lemma Legacy_set_scoring_outputs_absent (props : list (string * value)) :
  ToBoolean (prop "scoringResult" props) = false ->
  Legacy.set_scoring_outputs (VObj props) = ([], Normal tt).
Proof.
  intros H. unfold Legacy.set_scoring_outputs. cbn [get andThen].
  rewrite bind_eval_Normal, H. reflexivity.
Qed.

Lemma Legacy_set_scoring_outputs_Normal (result : value) :
  LegacyShape.is_ValidationResult result = true ->
  snd (Legacy.set_scoring_outputs result) = Normal tt
  /\ existsb is_setFailed (fst (Legacy.set_scoring_outputs result)) = false.
Proof.
  intros H. destruct result as [| | | | | |props]; try discriminate.
  destruct (Legacy_scoring_cases props H) as [E | [scoring [E Hs]]].
  - now rewrite (Legacy_set_scoring_outputs_absent _ E).
  - destruct (Legacy_set_scoring_outputs_present _ _ E Hs) as (zc & zt & _ & _ & ->).
    split; [reflexivity|]. cbn [fst app existsb is_setFailed orb].
    apply only_log_no_setFailed, Legacy_display_scores_quiet.
Qed.

Lemma Legacy_interpret_shape gt0 (failOnWarnings : bool) (result : value) :
  LegacyShape.is_ValidationResult result = true ->
  try_catch (Legacy.interpret gt0 failOnWarnings result)
  = (fst (Legacy.set_outputs result)
       ++ fst (Legacy.set_scoring_outputs result)
       ++ fst (Legacy.display_errors gt0 result)
       ++ fst (Legacy.display_warnings gt0 result)
       ++ fst (Legacy.determine_failure gt0 failOnWarnings result))%list.
Proof.
  intros H. unfold Legacy.interpret.
  destruct (Legacy_set_scoring_outputs_Normal _ H) as [Hscoring _].
  assert (Herrors : snd (Legacy.display_errors gt0 result) = Normal tt).
  { destruct result as [| | | | | |props]; try discriminate.
    pose proof H as H'. simpl in H'. split_shape H'.
    now apply Legacy_display_errors_Normal. }
  assert (Hwarnings : snd (Legacy.display_warnings gt0 result) = Normal tt).
  { destruct result as [| | | | | |props]; try discriminate.
    pose proof H as H'. simpl in H'. split_shape H'.
    now apply Legacy_display_warnings_Normal. }
  rewrite try_catch_bind by now rewrite Legacy_set_outputs_shape.
  rewrite try_catch_bind by assumption.
  rewrite try_catch_bind by assumption.
  rewrite try_catch_bind by assumption.
  rewrite try_catch_Normal by now rewrite Legacy_determine_failure_shape.
  reflexivity.
Qed.

Lemma Legacy_determine_failure_outputs gt0 (failOnWarnings : bool) (result : value) :
  LegacyShape.is_ValidationResult result = true ->
  outputs (fst (Legacy.determine_failure gt0 failOnWarnings result)) = [].
Proof.
  intros H. rewrite (Legacy_determine_failure_shape _ _ _ H). cbn [fst].
  destruct (negb _); [reflexivity|]. destruct (_ && _)%bool; reflexivity.
Qed.

Lemma Legacy_run_outputs JSON_parse gt0 (i : Inputs) (p : Process) (result : value) :
  JSON_parse (output p) = Some result ->
  LegacyShape.is_ValidationResult result = true ->
  outputs (Legacy.run JSON_parse gt0 i p)
  = ([ ("result", if reports_pass "valid" result then "passed" else "failed");
       ("error-count", count_text (findings (field "errors" result)));
       ("warning-count", count_text (findings (field "warnings" result))) ]
       ++ outputs (fst (Legacy.set_scoring_outputs result)))%list.
Proof.
  intros Hparse H.
  rewrite (Legacy_run_parsed _ _ _ _ _ Hparse), (Legacy_interpret_shape _ _ _ H).
  rewrite !outputs_app.
  rewrite (only_log_outputs _ (preamble_only_log i)).
  rewrite (only_log_outputs _ (Legacy_display_errors_quiet gt0 result)).
  rewrite (only_log_outputs _ (Legacy_display_warnings_quiet gt0 result)).
  rewrite (Legacy_determine_failure_outputs _ _ _ H).
  rewrite (Legacy_set_outputs_shape _ H).
  cbn [fst outputs app]. now rewrite !app_nil_r.
Qed.

Lemma Legacy_run_outcome JSON_parse gt0 (i : Inputs) (p : Process) (result : value) :
  JSON_parse (output p) = Some result ->
  LegacyShape.is_ValidationResult result = true ->
  outcome (Legacy.run JSON_parse gt0 i p)
  = outcome (fst (Legacy.determine_failure gt0 (failOnWarnings i) result)).
Proof.
  intros Hparse H. unfold outcome.
  rewrite (Legacy_run_parsed _ _ _ _ _ Hparse), (Legacy_interpret_shape _ _ _ H).
  rewrite !outcome_from_app.
  rewrite (only_log_outcome _ _ (preamble_only_log i)).
  rewrite (no_setFailed_outcome (fst (Legacy.set_outputs result)))
    by now rewrite (Legacy_set_outputs_shape _ H).
  rewrite (no_setFailed_outcome _ _ (proj2 (Legacy_set_scoring_outputs_Normal _ H))).
  rewrite (only_log_outcome _ _ (Legacy_display_errors_quiet gt0 result)).
  rewrite (only_log_outcome _ _ (Legacy_display_warnings_quiet gt0 result)).
  reflexivity.
Qed.

(** ** The seven outputs of [src/index.ts] *)

Lemma IndexTs_run_outputs_absent JSON_parse gt0 (i : Inputs) (p : Process)
      (result : value) :
  JSON_parse (output p) = Some result ->
  IndexTsShape.is_ValidationResult result = true ->
  ToBoolean (field "scoringResult" result) = false ->
  outputs (IndexTs.run JSON_parse gt0 i p)
  = [ ("result", if reports_pass "success" result then "passed" else "failed");
      ("error-count", count_text (findings (field "errors" result)));
      ("warning-count", count_text (findings (field "warnings" result)));
      ("compliance-score", "N/A");
      ("trust-score", "N/A");
      ("availability-score", "N/A");
      ("production-ready", "false") ].
Proof.
  intros Hparse H E. rewrite (IndexTs_run_outputs _ _ _ _ _ Hparse H).
  rewrite IndexTs_set_scoring_outputs_absent;
    [reflexivity | exact E | destruct result; discriminate..].
Qed.

Lemma IndexTs_run_outputs_present JSON_parse gt0 (i : Inputs) (p : Process)
      (result : value) (scoring : list (string * value)) :
  JSON_parse (output p) = Some result ->
  IndexTsShape.is_ValidationResult result = true ->
  field "scoringResult" result = VObj scoring ->
  outputs (IndexTs.run JSON_parse gt0 i p)
  = [ ("result", if reports_pass "success" result then "passed" else "failed");
      ("error-count", count_text (findings (field "errors" result)));
      ("warning-count", count_text (findings (field "warnings" result)));
      ("compliance-score", score_text "total" "0" (prop "compliance" scoring));
      ("trust-score", score_text "total" "0" (prop "trust" scoring));
      ("availability-score", score_text "total" "not-tested" (prop "availability" scoring));
      ("production-ready",
        if ToBoolean (prop "productionReady" scoring) then "true" else "false") ].
Proof.
  intros Hparse H E. rewrite (IndexTs_run_outputs _ _ _ _ _ Hparse H).
  destruct result as [| | | | | |props]; try discriminate. simpl in E.
  assert (Hs : IndexTsShape.is_ScoringResult (VObj scoring) = true).
  { pose proof H as H'. simpl in H'. split_shape H'. now rewrite E in H'0. }
  rewrite (IndexTs_set_scoring_outputs_present _ _ E Hs). cbn [fst].
  rewrite outputs_app, (only_log_outputs _ (IndexTs_display_scores_quiet _)).
  reflexivity.
Qed.

(** ** The outputs of the legacy variant *)

Lemma Legacy_run_outputs_absent JSON_parse gt0 (i : Inputs) (p : Process)
      (result : value) :
  JSON_parse (output p) = Some result ->
  LegacyShape.is_ValidationResult result = true ->
  ToBoolean (field "scoringResult" result) = false ->
  outputs (Legacy.run JSON_parse gt0 i p)
  = [ ("result", if reports_pass "valid" result then "passed" else "failed");
      ("error-count", count_text (findings (field "errors" result)));
      ("warning-count", count_text (findings (field "warnings" result))) ].
Proof.
  intros Hparse H E. rewrite (Legacy_run_outputs _ _ _ _ _ Hparse H).
  destruct result as [| | | | | |props]; try discriminate. simpl in E.
  now rewrite (Legacy_set_scoring_outputs_absent _ E).
Qed.

Lemma Legacy_run_outputs_present JSON_parse gt0 (i : Inputs) (p : Process)
      (result : value) (scoring : list (string * value)) :
  JSON_parse (output p) = Some result ->
  LegacyShape.is_ValidationResult result = true ->
  field "scoringResult" result = VObj scoring ->
  exists compliance trust : Z,
    dimension_value "score" (prop "compliance" scoring) = Some compliance
    /\ dimension_value "score" (prop "trust" scoring) = Some trust
    /\ outputs (Legacy.run JSON_parse gt0 i p)
       = [ ("result", if reports_pass "valid" result then "passed" else "failed");
           ("error-count", count_text (findings (field "errors" result)));
           ("warning-count", count_text (findings (field "warnings" result)));
           ("compliance-score", Number_toString compliance);
           ("trust-score", Number_toString trust);
           ("availability-score",
             score_text "score" "not-tested" (prop "availability" scoring));
           ("production-ready",
             if ToBoolean (prop "productionReady" scoring) then "true" else "false") ].
Proof.
  intros Hparse H E. rewrite (Legacy_run_outputs _ _ _ _ _ Hparse H).
  destruct result as [| | | | | |props]; try discriminate. simpl in E.
  assert (Hs : LegacyShape.is_ScoringResult (VObj scoring) = true).
  { pose proof H as H'. simpl in H'. split_shape H'. now rewrite E in H'0. }
  destruct (Legacy_set_scoring_outputs_present _ _ E Hs) as (zc & zt & Hc & Ht & ->).
  exists zc, zt. split; [exact Hc|]. split; [exact Ht|]. cbn [fst].
  rewrite outputs_app, (only_log_outputs _ (Legacy_display_scores_quiet _)).
  reflexivity.
Qed.

(* ================================================================= *)
(** * Sample runs, evaluated *)

Example run_index_scored :
  outputs (run_index (sample_inputs false) (printed 0 scored_by_total ""))
  = [ ("result", "passed"); ("error-count", "0"); ("warning-count", "0");
      ("compliance-score", "90"); ("trust-score", "85");
      ("availability-score", "not-tested"); ("production-ready", "true") ]
  /\ outcome (run_index (sample_inputs false) (printed 0 scored_by_total "")) = Success.
Proof. split; vm_compute; reflexivity. Qed.

Example run_index_failing :
  run_index (sample_inputs false) (printed 1 failing_document "")
  = (preamble (sample_inputs false)
       ++ [ debug ("CLI Output: " ++ failing_document);
            setOutput "result" "failed";
            setOutput "error-count" "1";
            setOutput "warning-count" "0";
            setOutput "compliance-score" "N/A";
            setOutput "trust-score" "N/A";
            setOutput "availability-score" "N/A";
            setOutput "production-ready" "false";
            info "";
            error "❌ Found 1 error(s):";
            error "  - missing field X";
            setFailed "Validation failed with 1 error(s)" ])%list.
Proof. vm_compute. reflexivity. Qed.

Example run_legacy_warned :
  run_legacy (sample_inputs true) (printed 0 warned_document "")
  = (preamble (sample_inputs true)
       ++ [ setOutput "result" "passed";
            setOutput "error-count" "0";
            setOutput "warning-count" "1";
            info "";
            warning "⚠️  Found 1 warning(s):";
            warning "  - deprecated field";
            setFailed
              "Validation passed but found 1 warning(s) (fail-on-warnings enabled)" ])%list.
Proof. vm_compute. reflexivity. Qed.

(* ================================================================= *)
(** * The claims *)

(** ** C1 *)

(** C1.  A document whose pass/fail field is false fails the job: for
    every parsed document, every setting of the inputs ([failOnWarnings]
    among them) and every process result, the outcome of [run] is a
    failure as soon as the field read by the engine ([success] in
    [src/index.ts], [valid] in the legacy variant) is not truthy.  No such
    input yields success. *)
Theorem C1_failed_validation_fails_the_job
        (JSON_parse : string -> option value) (StringToNumber_gt0 : string -> bool)
        (i : Inputs) (p : Process) (result : value) :
  JSON_parse (output p) = Some result ->
  (reports_pass "success" result = false ->
   is_failure (outcome (IndexTs.run JSON_parse StringToNumber_gt0 i p)) = true)
  /\ (reports_pass "valid" result = false ->
      is_failure (outcome (Legacy.run JSON_parse StringToNumber_gt0 i p)) = true).
Proof.
  intros Hparse. split; intros Hfield.
  - eapply IndexTs_run_doomed; [eassumption|].
    now apply IndexTs_determine_failure_doomed.
  - eapply Legacy_run_doomed; [eassumption|].
    now apply Legacy_determine_failure_doomed.
Qed.

Lemma C1_witness :
  is_failure (outcome (run_index (sample_inputs false) (printed 0 failing_document "")))
  = true
  /\ is_failure (outcome (run_legacy (sample_inputs true) (printed 0 failing_document "")))
     = true.
Proof.
  split.
  - apply (proj1 (C1_failed_validation_fails_the_job
                    Fragment.JSON_parse Fragment.StringToNumber_gt0
                    (sample_inputs false) (printed 0 failing_document "") _ eq_refl)).
    reflexivity.
  - apply (proj2 (C1_failed_validation_fails_the_job
                    Fragment.JSON_parse Fragment.StringToNumber_gt0
                    (sample_inputs true) (printed 0 failing_document "") _ eq_refl)).
    reflexivity.
Defined.

(** ** C2 *)

(** C2, as stated, fails on both variants.  On the text [not json] with
    [boom] on the error stream and exit code 1, [src/index.ts] gives the
    reason "Validation failed with exit code 1", which does not start with
    "Failed to parse validation output"; the legacy variant never
    mentions the error stream. *)
Lemma C2_counterexample :
  Fragment.JSON_parse (output unparseable) = None
  /\ ~ parse_failure_as_specified unparseable (run_index (sample_inputs false) unparseable)
  /\ ~ parse_failure_as_specified unparseable (run_legacy (sample_inputs false) unparseable).
Proof.
  split; [reflexivity|]. split.
  - intros [[detail H] _]. vm_compute in H. discriminate H.
  - intros (_ & _ & _ & H). vm_compute in H. discriminate H.
Qed.

(** C2, amended.  When the output does not parse, [run] of [src/index.ts]
    writes three lines at level [error] (a fixed one, the raw output, the
    raw error output), then fails the job with the reason "Validation
    failed with exit code N", N being the exit code whatever its value, and
    sets no output.  The legacy variant fails the job with the reason
    "Failed to parse validation output: " followed by the raw output, sets
    no output and writes nothing else to the log.  Neither goes through
    the fault handler. *)
Theorem C2_unparseable_output
        (JSON_parse : string -> option value) (StringToNumber_gt0 : string -> bool)
        (i : Inputs) (p : Process) :
  JSON_parse (output p) = None ->
  (IndexTs.run JSON_parse StringToNumber_gt0 i p
   = (preamble i ++ raw_output p
        ++ [ error "Failed to parse validation output as JSON";
             error ("Raw output: " ++ output p);
             error ("Error output: " ++ errorOutput p);
             setFailed ("Validation failed with exit code "
                          ++ Number_toString (exitCode p)) ])%list
   /\ outcome (IndexTs.run JSON_parse StringToNumber_gt0 i p)
      = Failure ("Validation failed with exit code " ++ Number_toString (exitCode p))
   /\ outputs (IndexTs.run JSON_parse StringToNumber_gt0 i p) = [])
  /\ (Legacy.run JSON_parse StringToNumber_gt0 i p
      = (preamble i
           ++ [setFailed ("Failed to parse validation output: " ++ output p)])%list
      /\ outcome (Legacy.run JSON_parse StringToNumber_gt0 i p)
         = Failure ("Failed to parse validation output: " ++ output p)
      /\ outputs (Legacy.run JSON_parse StringToNumber_gt0 i p) = []).
Proof.
  intros Hparse.
  rewrite (IndexTs_run_unparsed _ _ _ _ Hparse), (Legacy_run_unparsed _ _ _ _ Hparse).
  unfold outcome. rewrite !outcome_from_app, !outputs_app.
  rewrite (only_log_outcome _ _ (preamble_only_log i)).
  rewrite (only_log_outcome _ _ (raw_output_only_log p)).
  rewrite (only_log_outputs _ (preamble_only_log i)).
  rewrite (only_log_outputs _ (raw_output_only_log p)).
  repeat split; reflexivity.
Qed.

Lemma C2_witness :
  outcome (run_index (sample_inputs false) unparseable)
  = Failure "Validation failed with exit code 1"
  /\ outcome (run_legacy (sample_inputs false) unparseable)
     = Failure "Failed to parse validation output: not json".
Proof.
  pose proof (C2_unparseable_output
                Fragment.JSON_parse Fragment.StringToNumber_gt0
                (sample_inputs false) unparseable eq_refl)
    as [(_ & Hindex & _) (_ & Hlegacy & _)].
  split; [exact Hindex | exact Hlegacy].
Defined.

(** ** C8 *)

(** C8.  When the output parses, the exit code of the validator is not
    looked at: two runs that differ only in the exit code make the same
    calls, so they set the same outputs and end in the same outcome.  This
    holds for [src/index.ts] and for the legacy variant. *)
Theorem C8_exit_code_ignored_when_parsed
        (JSON_parse : string -> option value) (StringToNumber_gt0 : string -> bool)
        (i : Inputs) (stdout stderr : string) (result : value) (code code' : Z) :
  JSON_parse stdout = Some result ->
  (IndexTs.run JSON_parse StringToNumber_gt0 i (printed code stdout stderr)
   = IndexTs.run JSON_parse StringToNumber_gt0 i (printed code' stdout stderr)
   /\ outputs (IndexTs.run JSON_parse StringToNumber_gt0 i (printed code stdout stderr))
      = outputs (IndexTs.run JSON_parse StringToNumber_gt0 i (printed code' stdout stderr))
   /\ outcome (IndexTs.run JSON_parse StringToNumber_gt0 i (printed code stdout stderr))
      = outcome (IndexTs.run JSON_parse StringToNumber_gt0 i (printed code' stdout stderr)))
  /\ (Legacy.run JSON_parse StringToNumber_gt0 i (printed code stdout stderr)
      = Legacy.run JSON_parse StringToNumber_gt0 i (printed code' stdout stderr)
      /\ outputs (Legacy.run JSON_parse StringToNumber_gt0 i (printed code stdout stderr))
         = outputs (Legacy.run JSON_parse StringToNumber_gt0 i (printed code' stdout stderr))
      /\ outcome (Legacy.run JSON_parse StringToNumber_gt0 i (printed code stdout stderr))
         = outcome (Legacy.run JSON_parse StringToNumber_gt0 i (printed code' stdout stderr))).
Proof.
  intros Hparse.
  assert (Hindex :
            IndexTs.run JSON_parse StringToNumber_gt0 i (printed code stdout stderr)
            = IndexTs.run JSON_parse StringToNumber_gt0 i (printed code' stdout stderr)).
  { rewrite (IndexTs_run_parsed _ _ _ (printed code stdout stderr) _ Hparse).
    rewrite (IndexTs_run_parsed _ _ _ (printed code' stdout stderr) _ Hparse).
    reflexivity. }
  assert (Hlegacy :
            Legacy.run JSON_parse StringToNumber_gt0 i (printed code stdout stderr)
            = Legacy.run JSON_parse StringToNumber_gt0 i (printed code' stdout stderr)).
  { rewrite (Legacy_run_parsed _ _ _ (printed code stdout stderr) _ Hparse).
    rewrite (Legacy_run_parsed _ _ _ (printed code' stdout stderr) _ Hparse).
    reflexivity. }
  rewrite Hindex, Hlegacy. repeat split; reflexivity.
Qed.

Lemma C8_witness :
  run_index (sample_inputs true) (printed 0 warned_document "")
  = run_index (sample_inputs true) (printed 3 warned_document "")
  /\ run_legacy (sample_inputs true) (printed 0 warned_document "")
     = run_legacy (sample_inputs true) (printed 3 warned_document "").
Proof.
  pose proof (C8_exit_code_ignored_when_parsed
                Fragment.JSON_parse Fragment.StringToNumber_gt0
                (sample_inputs true) warned_document "" _ 0%Z 3%Z eq_refl)
    as [(Hindex & _) (Hlegacy & _)].
  split; [exact Hindex | exact Hlegacy].
Defined.

(** The one place where the exit code shows: the failure reason of
    [src/index.ts] when the output does not parse. *)
Lemma exit_code_shown_when_unparsed :
  outcome (run_index (sample_inputs false) (printed 1 "not json" ""))
  = Failure "Validation failed with exit code 1"
  /\ outcome (run_index (sample_inputs false) (printed 2 "not json" ""))
     = Failure "Validation failed with exit code 2".
Proof. split; reflexivity. Qed.

(** ** C4 *)








(** ** Reading single outputs of [src/index.ts] *)

Lemma IndexTs_published_basic JSON_parse gt0 (i : Inputs) (p : Process) (result : value) :
  JSON_parse (output p) = Some result ->
  IndexTsShape.is_ValidationResult result = true ->
  published "result" (IndexTs.run JSON_parse gt0 i p)
  = Some (if reports_pass "success" result then "passed" else "failed")
  /\ published "error-count" (IndexTs.run JSON_parse gt0 i p)
     = Some (count_text (findings (field "errors" result)))
  /\ published "warning-count" (IndexTs.run JSON_parse gt0 i p)
     = Some (count_text (findings (field "warnings" result))).
Proof.
  intros Hparse H. unfold published.
  destruct result as [| | | | | |props]; try discriminate.
  destruct (IndexTs_scoring_cases props H) as [E | [scoring [E Hs]]].
  - rewrite (IndexTs_run_outputs_absent _ _ _ _ _ Hparse H E). repeat split.
  - rewrite (IndexTs_run_outputs_present _ _ _ _ _ _ Hparse H E). repeat split.
Qed.

Lemma IndexTs_published_scores JSON_parse gt0 (i : Inputs) (p : Process)
      (result : value) (scoring : list (string * value)) :
  JSON_parse (output p) = Some result ->
  IndexTsShape.is_ValidationResult result = true ->
  field "scoringResult" result = VObj scoring ->
  published "compliance-score" (IndexTs.run JSON_parse gt0 i p)
  = Some (score_text "total" "0" (prop "compliance" scoring))
  /\ published "trust-score" (IndexTs.run JSON_parse gt0 i p)
     = Some (score_text "total" "0" (prop "trust" scoring))
  /\ published "availability-score" (IndexTs.run JSON_parse gt0 i p)
     = Some (score_text "total" "not-tested" (prop "availability" scoring))
  /\ published "production-ready" (IndexTs.run JSON_parse gt0 i p)
     = Some (if ToBoolean (prop "productionReady" scoring) then "true" else "false").
Proof.
  intros Hparse H E. unfold published.
  rewrite (IndexTs_run_outputs_present _ _ _ _ _ _ Hparse H E). repeat split.
Qed.

Lemma Legacy_published_basic JSON_parse gt0 (i : Inputs) (p : Process) (result : value) :
  JSON_parse (output p) = Some result ->
  LegacyShape.is_ValidationResult result = true ->
  published "result" (Legacy.run JSON_parse gt0 i p)
  = Some (if reports_pass "valid" result then "passed" else "failed")
  /\ published "error-count" (Legacy.run JSON_parse gt0 i p)
     = Some (count_text (findings (field "errors" result)))
  /\ published "warning-count" (Legacy.run JSON_parse gt0 i p)
     = Some (count_text (findings (field "warnings" result))).
Proof.
  intros Hparse H. unfold published.
  destruct result as [| | | | | |props]; try discriminate.
  destruct (Legacy_scoring_cases props H) as [E | [scoring [E Hs]]].
  - rewrite (Legacy_run_outputs_absent _ _ _ _ _ Hparse H E). repeat split.
  - destruct (Legacy_run_outputs_present JSON_parse gt0 i p _ _ Hparse H E)
      as (zc & zt & _ & _ & ->).
    repeat split.
Qed.

Lemma Legacy_published_scores JSON_parse gt0 (i : Inputs) (p : Process)
      (result : value) (scoring : list (string * value)) :
  JSON_parse (output p) = Some result ->
  LegacyShape.is_ValidationResult result = true ->
  field "scoringResult" result = VObj scoring ->
  published "compliance-score" (Legacy.run JSON_parse gt0 i p)
  = option_map Number_toString (dimension_value "score" (prop "compliance" scoring))
  /\ published "trust-score" (Legacy.run JSON_parse gt0 i p)
     = option_map Number_toString (dimension_value "score" (prop "trust" scoring))
  /\ published "availability-score" (Legacy.run JSON_parse gt0 i p)
     = Some (score_text "score" "not-tested" (prop "availability" scoring)).
Proof.
  intros Hparse H E. unfold published.
  destruct (Legacy_run_outputs_present JSON_parse gt0 i p _ _ Hparse H E)
    as (zc & zt & -> & -> & ->).
  repeat split.
Qed.

Lemma published_after_log_only (name : string) (t u : list call) :
  forallb is_log t = true -> published name (t ++ u) = published name u.
Proof.
  intros H. unfold published. now rewrite outputs_app, (only_log_outputs _ H).
Qed.

(** ** C5 *)

Lemma IndexTs_no_scoring_sentinels
      (JSON_parse : string -> option value) (StringToNumber_gt0 : string -> bool)
      (i : Inputs) (p : Process) (result : value) :
  JSON_parse (output p) = Some result ->
  IndexTsShape.is_ValidationResult result = true ->
  ToBoolean (field "scoringResult" result) = false ->
  published "compliance-score" (IndexTs.run JSON_parse StringToNumber_gt0 i p) = Some "N/A"
  /\ published "trust-score" (IndexTs.run JSON_parse StringToNumber_gt0 i p) = Some "N/A"
  /\ published "availability-score" (IndexTs.run JSON_parse StringToNumber_gt0 i p)
     = Some "N/A"
  /\ published "production-ready" (IndexTs.run JSON_parse StringToNumber_gt0 i p)
     = Some "false".
Proof.
  intros Hparse H E. unfold published.
  rewrite (IndexTs_run_outputs_absent _ _ _ _ _ Hparse H E). repeat split.
Qed.

(** Where the legacy variant differs: it has no [else] branch, so
    without a scoring object it sets none of the four. *)
Lemma Legacy_no_scoring_no_outputs
      (JSON_parse : string -> option value) (StringToNumber_gt0 : string -> bool)
      (i : Inputs) (p : Process) (result : value) :
  JSON_parse (output p) = Some result ->
  LegacyShape.is_ValidationResult result = true ->
  ToBoolean (field "scoringResult" result) = false ->
  published "compliance-score" (Legacy.run JSON_parse StringToNumber_gt0 i p) = None
  /\ published "trust-score" (Legacy.run JSON_parse StringToNumber_gt0 i p) = None
  /\ published "availability-score" (Legacy.run JSON_parse StringToNumber_gt0 i p) = None
  /\ published "production-ready" (Legacy.run JSON_parse StringToNumber_gt0 i p) = None.
Proof.
  intros Hparse H E. unfold published.
  rewrite (Legacy_run_outputs_absent _ _ _ _ _ Hparse H E). repeat split.
Qed.

(** C5, as stated, fails on the legacy variant.  Its [if] on the scoring
    object has no [else]: on a document that passes, with empty [errors]
    and [warnings] and no scoring object, the run sets [result],
    [error-count] and [warning-count] and nothing else, so
    [compliance-score] is not "N/A" and [production-ready] is not "false":
    neither is set at all. *)
Lemma C5_counterexample :
  published "compliance-score"
    (run_legacy (sample_inputs false) (printed 0 valid_only "")) <> Some "N/A"
  /\ published "production-ready"
       (run_legacy (sample_inputs false) (printed 0 valid_only "")) <> Some "false"
  /\ run_legacy (sample_inputs false) (printed 0 valid_only "")
     = (preamble (sample_inputs false)
          ++ [ setOutput "result" "passed";
               setOutput "error-count" "0";
               setOutput "warning-count" "0";
               info "";
               info "✅ Validation passed!" ])%list.
Proof.
  split; [|split].
  - intros H. vm_compute in H. discriminate H.
  - intros H. vm_compute in H. discriminate H.
  - vm_compute. reflexivity.
Qed.

(** C5, amended.  On a document of the declared shape without a scoring
    object (the field is missing or null), [run] of [src/index.ts] sets
    [compliance-score], [trust-score] and [availability-score] to "N/A"
    and [production-ready] to "false"; the legacy variant sets none of
    these four outputs. *)
Theorem C5_no_scoring_sentinels_in_index_nothing_in_legacy
        (JSON_parse : string -> option value) (StringToNumber_gt0 : string -> bool)
        (i : Inputs) (p : Process) (result : value) :
  JSON_parse (output p) = Some result ->
  ToBoolean (field "scoringResult" result) = false ->
  (IndexTsShape.is_ValidationResult result = true ->
   published "compliance-score" (IndexTs.run JSON_parse StringToNumber_gt0 i p)
   = Some "N/A"
   /\ published "trust-score" (IndexTs.run JSON_parse StringToNumber_gt0 i p)
      = Some "N/A"
   /\ published "availability-score" (IndexTs.run JSON_parse StringToNumber_gt0 i p)
      = Some "N/A"
   /\ published "production-ready" (IndexTs.run JSON_parse StringToNumber_gt0 i p)
      = Some "false")
  /\ (LegacyShape.is_ValidationResult result = true ->
      published "compliance-score" (Legacy.run JSON_parse StringToNumber_gt0 i p) = None
      /\ published "trust-score" (Legacy.run JSON_parse StringToNumber_gt0 i p) = None
      /\ published "availability-score" (Legacy.run JSON_parse StringToNumber_gt0 i p)
         = None
      /\ published "production-ready" (Legacy.run JSON_parse StringToNumber_gt0 i p)
         = None).
Proof.
  intros Hparse E. split; intros Hshape.
  - now apply IndexTs_no_scoring_sentinels with (result := result).
  - now apply Legacy_no_scoring_no_outputs with (result := result).
Qed.

Lemma C5_witness :
  (published "compliance-score"
     (run_index (sample_inputs false) (printed 0 success_only "")) = Some "N/A"
   /\ published "production-ready"
        (run_index (sample_inputs false) (printed 0 success_only "")) = Some "false")
  /\ (published "compliance-score"
        (run_legacy (sample_inputs false) (printed 0 valid_only "")) = None
      /\ published "production-ready"
           (run_legacy (sample_inputs false) (printed 0 valid_only "")) = None).
Proof.
  pose proof (C5_no_scoring_sentinels_in_index_nothing_in_legacy
                Fragment.JSON_parse Fragment.StringToNumber_gt0
                (sample_inputs false) (printed 0 success_only "") _
                eq_refl eq_refl)
    as [Hindex _].
  pose proof (C5_no_scoring_sentinels_in_index_nothing_in_legacy
                Fragment.JSON_parse Fragment.StringToNumber_gt0
                (sample_inputs false) (printed 0 valid_only "") _
                eq_refl eq_refl)
    as [_ Hlegacy].
  destruct (Hindex eq_refl) as (Hc & _ & _ & Hp).
  destruct (Hlegacy eq_refl) as (Hc' & _ & _ & Hp').
  split; split; assumption.
Defined.

(** ** C7 *)

Lemma IndexTs_missing_sequences_count_as_empty
      (JSON_parse : string -> option value) (StringToNumber_gt0 : string -> bool)
      (i : Inputs) (p : Process) (result : value) :
  JSON_parse (output p) = Some result ->
  IndexTsShape.is_ValidationResult result = true ->
  (field "errors" result = VUndef ->
   get "errors" result >>= IndexTs.length_or_zero >>= toString = Normal "0"
   /\ published "error-count" (IndexTs.run JSON_parse StringToNumber_gt0 i p) = Some "0"
   /\ IndexTs.display_errors StringToNumber_gt0 result = ([], Normal tt))
  /\ (field "warnings" result = VUndef ->
      get "warnings" result >>= IndexTs.length_or_zero >>= toString = Normal "0"
      /\ published "warning-count" (IndexTs.run JSON_parse StringToNumber_gt0 i p)
         = Some "0"
      /\ IndexTs.display_warnings StringToNumber_gt0 result = ([], Normal tt)).
Proof.
  intros Hparse H.
  destruct (IndexTs_published_basic JSON_parse StringToNumber_gt0 i p _ Hparse H)
    as (_ & Herrors & Hwarnings).
  destruct result as [| | | | | |props]; try discriminate.
  split; intros E; simpl in E.
  - split; [|split].
    + cbn [get andThen]. rewrite E. reflexivity.
    + rewrite Herrors. simpl. rewrite E. reflexivity.
    + unfold IndexTs.display_errors. cbn [get andThen]. rewrite E. reflexivity.
  - split; [|split].
    + cbn [get andThen]. rewrite E. reflexivity.
    + rewrite Hwarnings. simpl. rewrite E. reflexivity.
    + unfold IndexTs.display_warnings. cbn [get andThen]. rewrite E. reflexivity.
Qed.

(** Where the legacy variant differs: it reads [result.errors.length]
    unguarded, so a missing [errors] is a fault, reported by the handler
    after the [result] output was set. *)
Lemma Legacy_missing_errors_faults
      (JSON_parse : string -> option value) (StringToNumber_gt0 : string -> bool)
      (i : Inputs) (p : Process) (props : list (string * value)) :
  JSON_parse (output p) = Some (VObj props) ->
  prop "errors" props = VUndef ->
  Legacy.run JSON_parse StringToNumber_gt0 i p
  = (preamble i
       ++ [ setOutput "result"
              (if reports_pass "valid" (VObj props) then "passed" else "failed");
            setFailed "Cannot read properties of undefined (reading 'length')" ])%list.
Proof.
  intros Hparse E. rewrite (Legacy_run_parsed _ _ _ _ _ Hparse). f_equal.
  unfold Legacy.interpret, Legacy.set_outputs, reports_pass.
  cbn [get andThen]. rewrite E. reflexivity.
Qed.

(** The same for a missing [warnings], one output later. *)
Lemma Legacy_missing_warnings_faults
      (JSON_parse : string -> option value) (StringToNumber_gt0 : string -> bool)
      (i : Inputs) (p : Process) (props : list (string * value)) (l : list value) :
  JSON_parse (output p) = Some (VObj props) ->
  prop "errors" props = VArr l ->
  prop "warnings" props = VUndef ->
  Legacy.run JSON_parse StringToNumber_gt0 i p
  = (preamble i
       ++ [ setOutput "result"
              (if reports_pass "valid" (VObj props) then "passed" else "failed");
            setOutput "error-count" (count_text l);
            setFailed "Cannot read properties of undefined (reading 'length')" ])%list.
Proof.
  intros Hparse E E'. rewrite (Legacy_run_parsed _ _ _ _ _ Hparse). f_equal.
  unfold Legacy.interpret, Legacy.set_outputs, reports_pass.
  cbn [get andThen]. rewrite E, E'. reflexivity.
Qed.

(** C7, as stated, fails on the legacy variant.  It reads
    [result.errors.length] unguarded: on the document [{ "valid": true }],
    which has neither [errors] nor [warnings], the counting step faults;
    the run sets [result] alone, so [error-count] is not "0", and the job
    fails with the message of the fault although the validation passed. *)
Lemma C7_counterexample :
  published "error-count"
    (run_legacy (sample_inputs false) (printed 0 valid_bare "")) <> Some "0"
  /\ (get "errors" (VObj [("valid", VBool true)]) >>= get "length" >>= toString)
     = Throw (NullishRead VUndef "length")
  /\ run_legacy (sample_inputs false) (printed 0 valid_bare "")
     = (preamble (sample_inputs false)
          ++ [ setOutput "result" "passed";
               setFailed "Cannot read properties of undefined (reading 'length')" ])%list.
Proof.
  split; [|split].
  - intros H. vm_compute in H. discriminate H.
  - reflexivity.
  - vm_compute. reflexivity.
Qed.

(** C7, amended.  On a document of the declared shape in which [errors]
    (or [warnings]) is missing, [run] of [src/index.ts] treats the field as
    the empty sequence: the count expression evaluates to "0" without
    fault, the [error-count] (or [warning-count]) output is "0", and the
    display step writes no line and raises no fault.  The legacy variant
    does not: on an object without [errors] its counting step faults after
    the [result] output was set, and on an object with an [errors] array
    but without [warnings] it faults after [error-count] was set; in both
    cases the handler fails the job with "Cannot read properties of
    undefined (reading 'length')" and no count is set for the missing
    field. *)
Theorem C7_missing_sequences_empty_in_index_fault_in_legacy
        (JSON_parse : string -> option value) (StringToNumber_gt0 : string -> bool)
        (i : Inputs) (p : Process) (result : value) :
  JSON_parse (output p) = Some result ->
  (IndexTsShape.is_ValidationResult result = true ->
   (field "errors" result = VUndef ->
    get "errors" result >>= IndexTs.length_or_zero >>= toString = Normal "0"
    /\ published "error-count" (IndexTs.run JSON_parse StringToNumber_gt0 i p)
       = Some "0"
    /\ IndexTs.display_errors StringToNumber_gt0 result = ([], Normal tt))
   /\ (field "warnings" result = VUndef ->
       get "warnings" result >>= IndexTs.length_or_zero >>= toString = Normal "0"
       /\ published "warning-count" (IndexTs.run JSON_parse StringToNumber_gt0 i p)
          = Some "0"
       /\ IndexTs.display_warnings StringToNumber_gt0 result = ([], Normal tt)))
  /\ (forall props,
        result = VObj props ->
        (prop "errors" props = VUndef ->
         Legacy.run JSON_parse StringToNumber_gt0 i p
         = (preamble i
              ++ [ setOutput "result"
                     (if ToBoolean (prop "valid" props) then "passed" else "failed");
                   setFailed "Cannot read properties of undefined (reading 'length')" ])%list
         /\ published "error-count" (Legacy.run JSON_parse StringToNumber_gt0 i p)
            = None)
        /\ (forall l,
              prop "errors" props = VArr l ->
              prop "warnings" props = VUndef ->
              Legacy.run JSON_parse StringToNumber_gt0 i p
              = (preamble i
                   ++ [ setOutput "result"
                          (if ToBoolean (prop "valid" props) then "passed" else "failed");
                        setOutput "error-count" (count_text l);
                        setFailed
                          "Cannot read properties of undefined (reading 'length')" ])%list
              /\ published "warning-count"
                   (Legacy.run JSON_parse StringToNumber_gt0 i p) = None)).
Proof.
  intros Hparse. split.
  - intros Hshape.
    now apply IndexTs_missing_sequences_count_as_empty.
  - intros props ->. split.
    + intros E.
      rewrite (Legacy_missing_errors_faults _ _ _ _ _ Hparse E).
      split; [reflexivity|].
      now rewrite (published_after_log_only _ _ _ (preamble_only_log i)).
    + intros l E E'.
      rewrite (Legacy_missing_warnings_faults _ _ _ _ _ _ Hparse E E').
      split; [reflexivity|].
      now rewrite (published_after_log_only _ _ _ (preamble_only_log i)).
Qed.

Lemma C7_witness :
  (published "error-count" (run_index (sample_inputs false) (printed 0 bare_document ""))
   = Some "0"
   /\ published "warning-count"
        (run_index (sample_inputs false) (printed 0 bare_document "")) = Some "0")
  /\ published "error-count" (run_legacy (sample_inputs false) (printed 0 valid_bare ""))
     = None
  /\ published "warning-count"
       (run_legacy (sample_inputs false) (printed 0 valid_without_warnings "")) = None.
Proof.
  pose proof (C7_missing_sequences_empty_in_index_fault_in_legacy
                Fragment.JSON_parse Fragment.StringToNumber_gt0
                (sample_inputs false) (printed 0 bare_document "") _ eq_refl)
    as [Hindex _].
  pose proof (C7_missing_sequences_empty_in_index_fault_in_legacy
                Fragment.JSON_parse Fragment.StringToNumber_gt0
                (sample_inputs false) (printed 0 valid_bare "") _ eq_refl)
    as [_ Hlegacy].
  pose proof (C7_missing_sequences_empty_in_index_fault_in_legacy
                Fragment.JSON_parse Fragment.StringToNumber_gt0
                (sample_inputs false) (printed 0 valid_without_warnings "") _ eq_refl)
    as [_ Hlegacy'].
  destruct (Hindex eq_refl) as [Herrors Hwarnings].
  destruct (Hlegacy _ eq_refl) as [Hmissing _].
  destruct (Hlegacy' _ eq_refl) as [_ Hmissing'].
  split; [split|split].
  - exact (proj1 (proj2 (Herrors eq_refl))).
  - exact (proj1 (proj2 (Hwarnings eq_refl))).
  - exact (proj2 (Hmissing eq_refl)).
  - exact (proj2 (Hmissing' [] eq_refl eq_refl)).
Defined.

(** ** C9 *)

(** C9.  On a document of the declared shape with a scoring object in
    which the compliance (or trust) dimension holds no number under
    [total] (the dimension or its [total] is missing or null), [run] of
    [src/index.ts] sets [compliance-score] (or [trust-score]) to "0". *)
Theorem C9_missing_score_gives_zero
        (JSON_parse : string -> option value) (StringToNumber_gt0 : string -> bool)
        (i : Inputs) (p : Process) (result : value) (scoring : list (string * value)) :
  JSON_parse (output p) = Some result ->
  IndexTsShape.is_ValidationResult result = true ->
  field "scoringResult" result = VObj scoring ->
  (dimension_value "total" (prop "compliance" scoring) = None ->
   published "compliance-score" (IndexTs.run JSON_parse StringToNumber_gt0 i p)
   = Some "0")
  /\ (dimension_value "total" (prop "trust" scoring) = None ->
      published "trust-score" (IndexTs.run JSON_parse StringToNumber_gt0 i p)
      = Some "0").
Proof.
  intros Hparse H E.
  destruct (IndexTs_published_scores JSON_parse StringToNumber_gt0 i p _ _ Hparse H E)
    as (Hc & Ht & _).
  unfold score_text in Hc, Ht.
  split; intros Hnone; [rewrite Hc | rewrite Ht]; now rewrite Hnone.
Qed.

Lemma C9_witness :
  published "compliance-score"
    (run_index (sample_inputs false) (printed 0 unscored_dimensions "")) = Some "0"
  /\ published "trust-score"
       (run_index (sample_inputs false) (printed 0 unscored_dimensions "")) = Some "0".
Proof.
  pose proof (C9_missing_score_gives_zero
                Fragment.JSON_parse Fragment.StringToNumber_gt0
                (sample_inputs false) (printed 0 unscored_dimensions "") _ _
                eq_refl eq_refl eq_refl)
    as [Hc Ht].
  split; [apply Hc | apply Ht]; reflexivity.
Defined.

(** ** C3 *)

(** C3, as stated, fails on both variants.  [src/index.ts] never reads
    [valid]: a document carrying only [valid: true] gets the [result]
    output "failed" and a failed job, unlike the one carrying
    [success: true].  The legacy variant never reads [success], with the
    mirrored effect. *)
Lemma C3_counterexample :
  ~ same_verdict (run_index (sample_inputs false) (printed 0 valid_only ""))
                 (run_index (sample_inputs false) (printed 0 success_only ""))
  /\ ~ same_verdict (run_legacy (sample_inputs false) (printed 0 valid_only ""))
                    (run_legacy (sample_inputs false) (printed 0 success_only ""))
  /\ published "result" (run_index (sample_inputs false) (printed 0 valid_only ""))
     = Some "failed"
  /\ outcome (run_index (sample_inputs false) (printed 0 valid_only ""))
     = Failure "Validation failed with 0 error(s)".
Proof.
  split; [|split; [|split]].
  - intros [H _]. vm_compute in H. discriminate H.
  - intros [H _]. vm_compute in H. discriminate H.
  - reflexivity.
  - reflexivity.
Qed.

(** C3, amended.  Each variant resolves the pass/fail indicator from one
    key only: [src/index.ts] from [success], the legacy variant from
    [valid].  On a document of the variant's declared shape the [result]
    output is "passed" exactly when that key holds a truthy value; a
    document without that key gets "failed" and a failed job, whatever it
    holds under the other key. *)
Theorem C3_each_variant_reads_its_own_key
        (JSON_parse : string -> option value) (StringToNumber_gt0 : string -> bool)
        (i : Inputs) (p : Process) (result : value) :
  JSON_parse (output p) = Some result ->
  (IndexTsShape.is_ValidationResult result = true ->
   published "result" (IndexTs.run JSON_parse StringToNumber_gt0 i p)
   = Some (if ToBoolean (field "success" result) then "passed" else "failed")
   /\ (field "success" result = VUndef ->
       published "result" (IndexTs.run JSON_parse StringToNumber_gt0 i p) = Some "failed"
       /\ is_failure (outcome (IndexTs.run JSON_parse StringToNumber_gt0 i p)) = true))
  /\ (LegacyShape.is_ValidationResult result = true ->
      published "result" (Legacy.run JSON_parse StringToNumber_gt0 i p)
      = Some (if ToBoolean (field "valid" result) then "passed" else "failed")
      /\ (field "valid" result = VUndef ->
          published "result" (Legacy.run JSON_parse StringToNumber_gt0 i p) = Some "failed"
          /\ is_failure (outcome (Legacy.run JSON_parse StringToNumber_gt0 i p)) = true)).
Proof.
  intros Hparse. split; intros H.
  - destruct (IndexTs_published_basic JSON_parse StringToNumber_gt0 i p _ Hparse H)
      as (Hresult & _).
    destruct result as [| | | | | |props]; try discriminate.
    split; [exact Hresult|]. intros E. simpl in E. split.
    + rewrite Hresult. unfold reports_pass. cbn [get]. now rewrite E.
    + eapply IndexTs_run_doomed; [eassumption|].
      apply IndexTs_determine_failure_doomed.
      unfold reports_pass. cbn [get]. now rewrite E.
  - destruct (Legacy_published_basic JSON_parse StringToNumber_gt0 i p _ Hparse H)
      as (Hresult & _).
    destruct result as [| | | | | |props]; try discriminate.
    split; [exact Hresult|]. intros E. simpl in E. split.
    + rewrite Hresult. unfold reports_pass. cbn [get]. now rewrite E.
    + eapply Legacy_run_doomed; [eassumption|].
      apply Legacy_determine_failure_doomed.
      unfold reports_pass. cbn [get]. now rewrite E.
Qed.

Lemma C3_witness :
  published "result" (run_index (sample_inputs false) (printed 0 valid_only ""))
  = Some "failed"
  /\ published "result" (run_legacy (sample_inputs false) (printed 0 valid_only ""))
     = Some "passed"
  /\ published "result" (run_legacy (sample_inputs false) (printed 0 success_only ""))
     = Some "failed".
Proof.
  pose proof (C3_each_variant_reads_its_own_key
                Fragment.JSON_parse Fragment.StringToNumber_gt0
                (sample_inputs false) (printed 0 valid_only "") _ eq_refl)
    as [Hindex Hlegacy].
  pose proof (C3_each_variant_reads_its_own_key
                Fragment.JSON_parse Fragment.StringToNumber_gt0
                (sample_inputs false) (printed 0 success_only "") _ eq_refl)
    as [_ Hlegacy'].
  split; [|split].
  - exact (proj1 (proj2 (Hindex eq_refl) eq_refl)).
  - exact (proj1 (Hlegacy eq_refl)).
  - exact (proj1 (proj2 (Hlegacy' eq_refl) eq_refl)).
Defined.

(** ** C6 *)




(** ** C10 *)

(** C10, as stated, fails.  The text [5] is valid JSON and not an object,
    yet reading its fields raises no fault: [run] of [src/index.ts] sets
    all seven outputs and fails the job with the reason "Validation failed
    with 0 error(s)", which is the reason of a reported failure and not the
    message of a fault. *)
Lemma C10_counterexample :
  Fragment.JSON_parse "5" = Some (VNum 5)
  /\ outputs (run_index (sample_inputs false) (printed 0 "5" "")) <> []
  /\ published "result" (run_index (sample_inputs false) (printed 0 "5" ""))
     = Some "failed"
  /\ outcome (run_index (sample_inputs false) (printed 0 "5" ""))
     = Failure "Validation failed with 0 error(s)".
Proof.
  split; [reflexivity|]. split; [|split].
  - intros H. vm_compute in H. discriminate H.
  - reflexivity.
  - reflexivity.
Qed.

(** C10, amended.  When the output parses to [null], the first field
    read of [run] in [src/index.ts] faults; the handler at the top of [run]
    reports the message of the fault as the reason of the failure, and no
    output is set.  When it parses to a boolean, a number, a string or an
    array, no read faults: every field reads as undefined, the seven
    outputs are set ("failed", two counts of "0", three times "N/A",
    "false") and the job fails with "Validation failed with 0 error(s)". *)
Theorem C10_documents_that_are_not_objects
        (JSON_parse : string -> option value) (StringToNumber_gt0 : string -> bool)
        (i : Inputs) (p : Process) (result : value) :
  JSON_parse (output p) = Some result ->
  (result = VNull ->
   IndexTs.run JSON_parse StringToNumber_gt0 i p
   = (preamble i ++ raw_output p
        ++ [setFailed "Cannot read properties of null (reading 'success')"])%list
   /\ outputs (IndexTs.run JSON_parse StringToNumber_gt0 i p) = []
   /\ outcome (IndexTs.run JSON_parse StringToNumber_gt0 i p)
      = Failure "Cannot read properties of null (reading 'success')")
  /\ (match result with
      | VBool _ | VNum _ | VStr _ | VArr _ => True
      | _ => False
      end ->
      IndexTs.run JSON_parse StringToNumber_gt0 i p
      = (preamble i ++ raw_output p
           ++ [ setOutput "result" "failed";
                setOutput "error-count" "0";
                setOutput "warning-count" "0";
                setOutput "compliance-score" "N/A";
                setOutput "trust-score" "N/A";
                setOutput "availability-score" "N/A";
                setOutput "production-ready" "false";
                setFailed "Validation failed with 0 error(s)" ])%list
      /\ outcome (IndexTs.run JSON_parse StringToNumber_gt0 i p)
         = Failure "Validation failed with 0 error(s)").
Proof.
  intros Hparse. rewrite (IndexTs_run_parsed _ _ _ _ _ Hparse).
  unfold outcome. rewrite !outcome_from_app, !outputs_app.
  rewrite (only_log_outcome _ _ (preamble_only_log i)).
  rewrite (only_log_outcome _ _ (raw_output_only_log p)).
  rewrite (only_log_outputs _ (preamble_only_log i)).
  rewrite (only_log_outputs _ (raw_output_only_log p)).
  split.
  - intros ->. repeat split.
  - intros Hshape.
    destruct result as [| |b|z|s|l|props]; try contradiction;
      destruct (failOnWarnings i); repeat split.
Qed.

Lemma C10_witness :
  outcome (run_index (sample_inputs false) (printed 0 "null" ""))
  = Failure "Cannot read properties of null (reading 'success')"
  /\ outputs (run_index (sample_inputs false) (printed 0 "null" "")) = []
  /\ outcome (run_index (sample_inputs false) (printed 0 "[]" ""))
     = Failure "Validation failed with 0 error(s)".
Proof.
  pose proof (C10_documents_that_are_not_objects
                Fragment.JSON_parse Fragment.StringToNumber_gt0
                (sample_inputs false) (printed 0 "null" "") _ eq_refl)
    as [Hnull _].
  pose proof (C10_documents_that_are_not_objects
                Fragment.JSON_parse Fragment.StringToNumber_gt0
                (sample_inputs false) (printed 0 "[]" "") _ eq_refl)
    as [_ Harray].
  destruct (Hnull eq_refl) as (_ & Houtputs & Houtcome).
  destruct (Harray I) as (_ & Houtcome').
  split; [exact Houtcome | split; [exact Houtputs | exact Houtcome']].
Defined.

(* ================================================================= *)
(** * Further properties of [run] *)

(** ** Sequencing, continued *)

Lemma bind_eval {A B} (c : completion A) (f : A -> Action B) :
  bind (eval c) f
  = match c with
    | Normal a => f a
    | Throw e => ([], Throw e)
    end.
Proof. destruct c; [apply bind_eval_Normal | reflexivity]. Qed.

Lemma bind_assoc {A B C} (m : Action A) (f : A -> Action B) (g : B -> Action C) :
  bind (bind m f) g = bind m (fun a => bind (f a) g).
Proof.
  unfold bind. destruct (snd m) as [a|e]; cbn [fst snd]; [|reflexivity].
  destruct (snd (f a)) as [b|e]; cbn [fst snd]; [|reflexivity].
  now rewrite app_assoc.
Qed.

Lemma try_catch_core (c : call) (k : Action unit) :
  try_catch (core c ;; k) = c :: try_catch k.
Proof. now rewrite try_catch_bind. Qed.

(** ** Pieces of [run] whose calls all satisfy a predicate *)

Lemma calls_only_eval P {A} (c : completion A) : calls_only P (eval c).
Proof. reflexivity. Qed.

Lemma calls_only_ret P {A} (a : A) : calls_only P (ret a).
Proof. reflexivity. Qed.

Lemma calls_only_core P (c : call) : P c = true -> calls_only P (core c).
Proof. intros H. unfold calls_only; simpl. now rewrite H. Qed.

Lemma calls_only_bind P {A B} (m : Action A) (f : A -> Action B) :
  calls_only P m -> (forall a, calls_only P (f a)) -> calls_only P (bind m f).
Proof.
  unfold calls_only, bind. intros Hm Hf.
  destruct (snd m); cbn [fst]; [|assumption].
  rewrite forallb_app, Hm. apply Hf.
Qed.

Lemma calls_only_when P (c : bool) (m : Action unit) :
  calls_only P m -> calls_only P (when c m).
Proof. destruct c; simpl; [auto | intros _; apply calls_only_ret]. Qed.

Lemma calls_only_if P {A} (c : bool) (m k : Action A) :
  calls_only P m -> calls_only P k -> calls_only P (if c then m else k).
Proof. now destruct c. Qed.

Lemma calls_only_forEach P (v : value) (f : value -> Action unit) :
  (forall x, calls_only P (f x)) -> calls_only P (forEach v f).
Proof.
  intros Hf. destruct v; simpl; try apply calls_only_eval.
  induction elements as [|x l IH]; simpl.
  - apply calls_only_ret.
  - apply calls_only_bind; auto.
Qed.

Lemma calls_only_try_catch P (m : Action unit) :
  calls_only P m -> (forall reason, P (setFailed reason) = true) ->
  forallb P (try_catch m) = true.
Proof.
  unfold calls_only, try_catch. intros Hm Hfailed.
  destruct (snd m); [assumption|].
  rewrite forallb_app, Hm. simpl. now rewrite Hfailed.
Qed.

Ltac calls_only_steps :=
  repeat first
    [ apply calls_only_eval
    | apply calls_only_ret
    | apply calls_only_core; reflexivity
    | apply calls_only_when
    | apply calls_only_if
    | apply calls_only_forEach; intros ?
    | apply calls_only_bind; [|intros ?] ].

Lemma IndexTs_set_basic_outputs_ordinary (result : value) :
  calls_only ordinary (IndexTs.set_basic_outputs result).
Proof. unfold IndexTs.set_basic_outputs. calls_only_steps. Qed.

Lemma IndexTs_set_scoring_outputs_ordinary (result : value) :
  calls_only ordinary (IndexTs.set_scoring_outputs result).
Proof.
  unfold IndexTs.set_scoring_outputs, IndexTs.display_scores. calls_only_steps.
Qed.

Lemma IndexTs_display_errors_ordinary gt0 (result : value) :
  calls_only ordinary (IndexTs.display_errors gt0 result).
Proof. unfold IndexTs.display_errors. calls_only_steps. Qed.

Lemma IndexTs_display_warnings_ordinary gt0 (result : value) :
  calls_only ordinary (IndexTs.display_warnings gt0 result).
Proof. unfold IndexTs.display_warnings. calls_only_steps. Qed.

Lemma Legacy_set_outputs_ordinary (result : value) :
  calls_only ordinary (Legacy.set_outputs result).
Proof. unfold Legacy.set_outputs. calls_only_steps. Qed.

Lemma Legacy_set_scoring_outputs_ordinary (result : value) :
  calls_only ordinary (Legacy.set_scoring_outputs result).
Proof.
  unfold Legacy.set_scoring_outputs, Legacy.display_scores. calls_only_steps.
Qed.

Lemma Legacy_display_errors_ordinary gt0 (result : value) :
  calls_only ordinary (Legacy.display_errors gt0 result).
Proof. unfold Legacy.display_errors. calls_only_steps. Qed.

Lemma Legacy_display_warnings_ordinary gt0 (result : value) :
  calls_only ordinary (Legacy.display_warnings gt0 result).
Proof. unfold Legacy.display_warnings. calls_only_steps. Qed.

(** ** Every run ends with its verdict *)

Lemma verdict_after (t u : list call) :
  forallb ordinary t = true -> verdict u -> verdict (t ++ u).
Proof.
  intros Ht (before & last & -> & Hbefore & Hlast).
  exists (t ++ before)%list, last. split; [now rewrite app_assoc|].
  split; [|exact Hlast]. now rewrite forallb_app, Ht.
Qed.

Lemma verdict_bind {A} (m : Action A) (f : A -> Action unit) :
  calls_only ordinary m ->
  (forall a, verdict (try_catch (f a))) ->
  verdict (try_catch (bind m f)).
Proof.
  unfold calls_only. intros Hm Hf. unfold bind, try_catch.
  destruct (snd m) as [a|e]; cbn [fst snd].
  - specialize (Hf a). unfold try_catch in Hf.
    destruct (snd (f a)).
    + now apply verdict_after.
    + rewrite <- app_assoc. now apply verdict_after.
  - exists (fst m), [setFailed (message e)]. repeat split; eauto.
Qed.

Lemma verdict_setFailed (reason : string) : verdict (try_catch (core (setFailed reason))).
Proof. exists [], [setFailed reason]. repeat split; eauto. Qed.

Lemma verdict_pass_lines :
  verdict (try_catch (core (info "") ;; core (info "✅ Validation passed!"))).
Proof. exists [], pass_lines. repeat split; auto. Qed.

Lemma IndexTs_determine_failure_verdict gt0 (failOnWarnings : bool) (result : value) :
  verdict (try_catch (IndexTs.determine_failure gt0 failOnWarnings result)).
Proof.
  unfold IndexTs.determine_failure.
  apply verdict_bind; [calls_only_steps|]. intros success.
  destruct (negb (ToBoolean success)).
  - apply verdict_bind; [calls_only_steps|]. intros errorCount.
    apply verdict_bind; [calls_only_steps|]. intros n. apply verdict_setFailed.
  - apply verdict_bind; [calls_only_steps|]. intros [|].
    + apply verdict_bind; [calls_only_steps|]. intros n. apply verdict_setFailed.
    + apply verdict_pass_lines.
Qed.

Lemma Legacy_determine_failure_verdict gt0 (failOnWarnings : bool) (result : value) :
  verdict (try_catch (Legacy.determine_failure gt0 failOnWarnings result)).
Proof.
  unfold Legacy.determine_failure.
  apply verdict_bind; [calls_only_steps|]. intros valid.
  destruct (negb (ToBoolean valid)).
  - apply verdict_bind; [calls_only_steps|]. intros n. apply verdict_setFailed.
  - apply verdict_bind; [calls_only_steps|]. intros [|].
    + apply verdict_bind; [calls_only_steps|]. intros n. apply verdict_setFailed.
    + apply verdict_pass_lines.
Qed.

Lemma IndexTs_run_verdict JSON_parse gt0 (i : Inputs) (p : Process) :
  verdict (IndexTs.run JSON_parse gt0 i p).
Proof.
  unfold IndexTs.run.
  repeat (apply verdict_bind; [calls_only_steps|]; intros ?).
  destruct (JSON_parse (output p)) as [result|].
  - unfold IndexTs.interpret.
    apply verdict_bind; [apply IndexTs_set_basic_outputs_ordinary|]. intros _.
    apply verdict_bind; [apply IndexTs_set_scoring_outputs_ordinary|]. intros _.
    apply verdict_bind; [apply IndexTs_display_errors_ordinary|]. intros _.
    apply verdict_bind; [apply IndexTs_display_warnings_ordinary|]. intros _.
    apply IndexTs_determine_failure_verdict.
  - unfold IndexTs.parse_failed.
    repeat (apply verdict_bind; [calls_only_steps|]; intros ?).
    apply verdict_setFailed.
Qed.

Lemma Legacy_run_verdict JSON_parse gt0 (i : Inputs) (p : Process) :
  verdict (Legacy.run JSON_parse gt0 i p).
Proof.
  unfold Legacy.run.
  repeat (apply verdict_bind; [calls_only_steps|]; intros ?).
  destruct (JSON_parse (output p)) as [result|].
  - unfold Legacy.interpret.
    apply verdict_bind; [apply Legacy_set_outputs_ordinary|]. intros _.
    apply verdict_bind; [apply Legacy_set_scoring_outputs_ordinary|]. intros _.
    apply verdict_bind; [apply Legacy_display_errors_ordinary|]. intros _.
    apply verdict_bind; [apply Legacy_display_warnings_ordinary|]. intros _.
    apply Legacy_determine_failure_verdict.
  - apply verdict_setFailed.
Qed.

Lemma ordinary_no_setFailed (t : list call) :
  forallb ordinary t = true -> existsb is_setFailed t = false.
Proof.
  induction t as [|c t IH]; simpl; [reflexivity|].
  intros H. apply andb_prop in H as [Hc Ht].
  destruct c; simpl in Hc; try discriminate; auto.
Qed.

Lemma ordinary_output_names (t : list call) (n v : string) :
  forallb ordinary t = true -> In (n, v) (outputs t) -> In n output_names.
Proof.
  induction t as [|c t IH]; cbn [forallb outputs]; [intros _ []|].
  intros H Hin. apply andb_prop in H as [Hc Ht].
  destruct c; cbn [ordinary] in Hc; cbn [outputs] in Hin; try discriminate; auto.
  cbn [In] in Hin. destruct Hin as [E|Hin]; [|auto]. injection E as <- <-.
  apply existsb_exists in Hc as (n' & Hn' & E). apply String.eqb_eq in E.
  now subst.
Qed.

(** What a verdict says about the outcome. *)
Lemma verdict_outcome (t : list call) : verdict t -> one_verdict t.
Proof.
  intros (before & last & -> & Hbefore & [[reason ->] | ->]);
    pose proof (ordinary_no_setFailed _ Hbefore) as Hnone.
  - left. exists before, reason. repeat split; [assumption|].
    unfold outcome. rewrite outcome_from_app.
    now rewrite (no_setFailed_outcome _ _ Hnone).
  - right. exists before. repeat split; [assumption|].
    unfold outcome. rewrite outcome_from_app.
    now rewrite (no_setFailed_outcome _ _ Hnone).
Qed.

(** X1.  Every run of either variant, whatever the validator printed and
    however it parses, ends with its verdict and gives it once: either the
    last call is the only [setFailed] of the run and the job has failed for
    that reason, or the run ends with the two lines of a passing
    validation, calls [setFailed] nowhere, and the job succeeds. *)
Theorem X1_every_run_ends_with_one_verdict
        (JSON_parse : string -> option value) (StringToNumber_gt0 : string -> bool)
        (i : Inputs) (p : Process) :
  one_verdict (IndexTs.run JSON_parse StringToNumber_gt0 i p)
  /\ one_verdict (Legacy.run JSON_parse StringToNumber_gt0 i p).
Proof.
  split; apply verdict_outcome; [apply IndexTs_run_verdict | apply Legacy_run_verdict].
Qed.

Lemma verdict_output_names (t : list call) :
  verdict t -> Forall (fun o => In (fst o) output_names) (outputs t).
Proof.
  intros (before & last & -> & Hbefore & Hlast).
  apply Forall_forall. intros [n v] Hin.
  rewrite outputs_app in Hin. apply in_app_or in Hin as [Hin|Hin].
  - eapply ordinary_output_names; eassumption.
  - destruct Hlast as [[reason ->] | ->]; simpl in Hin; contradiction.
Qed.

(** X2.  A run of either variant never sets an output outside the seven
    the action declares, whatever the document holds and wherever the run
    stops. *)
Theorem X2_only_declared_outputs
        (JSON_parse : string -> option value) (StringToNumber_gt0 : string -> bool)
        (i : Inputs) (p : Process) :
  Forall (fun o => In (fst o) output_names)
         (outputs (IndexTs.run JSON_parse StringToNumber_gt0 i p))
  /\ Forall (fun o => In (fst o) output_names)
            (outputs (Legacy.run JSON_parse StringToNumber_gt0 i p)).
Proof.
  split; apply verdict_output_names;
    [apply IndexTs_run_verdict | apply Legacy_run_verdict].
Qed.

(** ** The [result] output and the verdict *)

Lemma leaves_lookup (name : string) (t : list call) :
  forallb (leaves name) t = true -> lookup name (outputs t) = None.
Proof.
  induction t as [|c t IH]; cbn [forallb outputs]; [reflexivity|].
  intros H. apply andb_prop in H as [Hc Ht].
  destruct c; cbn [leaves] in Hc; cbn [outputs]; auto.
  cbn [lookup]. rewrite (IH Ht).
  rewrite String.eqb_sym. apply negb_true_iff in Hc. now rewrite Hc.
Qed.

Lemma published_first (name v : string) (t : list call) :
  forallb (leaves name) t = true ->
  published name (setOutput name v :: t) = Some v.
Proof.
  intros H. unfold published. cbn [outputs lookup].
  now rewrite (leaves_lookup _ _ H), String.eqb_refl.
Qed.

Lemma published_after_log (name : string) (t u : list call) :
  forallb is_log t = true -> published name (t ++ u) = published name u.
Proof.
  intros H. unfold published. now rewrite outputs_app, (only_log_outputs _ H).
Qed.

Lemma IndexTs_interpret_result gt0 (failOnWarnings : bool) (result success : value) :
  get "success" result = Normal success ->
  exists rest,
    try_catch (IndexTs.interpret gt0 failOnWarnings result)
    = setOutput "result" (if ToBoolean success then "passed" else "failed") :: rest
    /\ forallb (leaves "result") rest = true.
Proof.
  intros H. unfold IndexTs.interpret, IndexTs.set_basic_outputs.
  rewrite bind_assoc, H, bind_eval_Normal, bind_assoc, try_catch_core.
  eexists. split; [reflexivity|].
  apply calls_only_try_catch; [|reflexivity].
  unfold IndexTs.set_scoring_outputs, IndexTs.display_scores, IndexTs.display_errors,
    IndexTs.display_warnings, IndexTs.determine_failure.
  calls_only_steps.
Qed.

Lemma Legacy_interpret_result gt0 (failOnWarnings : bool) (result valid : value) :
  get "valid" result = Normal valid ->
  exists rest,
    try_catch (Legacy.interpret gt0 failOnWarnings result)
    = setOutput "result" (if ToBoolean valid then "passed" else "failed") :: rest
    /\ forallb (leaves "result") rest = true.
Proof.
  intros H. unfold Legacy.interpret, Legacy.set_outputs.
  rewrite bind_assoc, H, bind_eval_Normal, bind_assoc, try_catch_core.
  eexists. split; [reflexivity|].
  apply calls_only_try_catch; [|reflexivity].
  unfold Legacy.set_scoring_outputs, Legacy.display_scores, Legacy.display_errors,
    Legacy.display_warnings, Legacy.determine_failure.
  calls_only_steps.
Qed.

Lemma IndexTs_result_published JSON_parse gt0 (i : Inputs) (p : Process)
      (result success : value) :
  JSON_parse (output p) = Some result ->
  get "success" result = Normal success ->
  published "result" (IndexTs.run JSON_parse gt0 i p)
  = Some (if ToBoolean success then "passed" else "failed").
Proof.
  intros Hparse H.
  rewrite (IndexTs_run_parsed _ _ _ _ _ Hparse).
  rewrite (published_after_log _ _ _ (preamble_only_log i)).
  rewrite (published_after_log _ _ _ (raw_output_only_log p)).
  destruct (IndexTs_interpret_result gt0 (failOnWarnings i) _ _ H)
    as (rest & -> & Hrest).
  now apply published_first.
Qed.

Lemma Legacy_result_published JSON_parse gt0 (i : Inputs) (p : Process)
      (result valid : value) :
  JSON_parse (output p) = Some result ->
  get "valid" result = Normal valid ->
  published "result" (Legacy.run JSON_parse gt0 i p)
  = Some (if ToBoolean valid then "passed" else "failed").
Proof.
  intros Hparse H.
  rewrite (Legacy_run_parsed _ _ _ _ _ Hparse).
  rewrite (published_after_log _ _ _ (preamble_only_log i)).
  destruct (Legacy_interpret_result gt0 (failOnWarnings i) _ _ H)
    as (rest & -> & Hrest).
  now apply published_first.
Qed.

(** X3.  As soon as the parsed document is not [null], the [result] output
    is set, first of all and for good: whatever the rest of the document
    holds, and even when a later step faults, its final value is "passed"
    when the variant's key ([success], or [valid] in the legacy variant)
    is truthy and "failed" otherwise. *)
Theorem X3_result_output_survives_later_faults
        (JSON_parse : string -> option value) (StringToNumber_gt0 : string -> bool)
        (i : Inputs) (p : Process) (result : value) :
  JSON_parse (output p) = Some result ->
  (forall success,
     get "success" result = Normal success ->
     published "result" (IndexTs.run JSON_parse StringToNumber_gt0 i p)
     = Some (if ToBoolean success then "passed" else "failed"))
  /\ (forall valid,
        get "valid" result = Normal valid ->
        published "result" (Legacy.run JSON_parse StringToNumber_gt0 i p)
        = Some (if ToBoolean valid then "passed" else "failed")).
Proof.
  intros Hparse. split; intros v H.
  - now apply IndexTs_result_published with (result := result).
  - now apply Legacy_result_published with (result := result).
Qed.

Lemma X3_witness :
  published "result" (run_index (sample_inputs false) (printed 0 faulting_after_result ""))
  = Some "passed"
  /\ published "result" (run_legacy (sample_inputs false) (printed 0 valid_only ""))
     = Some "passed".
Proof.
  split.
  - exact (proj1 (X3_result_output_survives_later_faults
                    Fragment.JSON_parse Fragment.StringToNumber_gt0
                    (sample_inputs false) (printed 0 faulting_after_result "") _ eq_refl)
             (VBool true) eq_refl).
  - exact (proj2 (X3_result_output_survives_later_faults
                    Fragment.JSON_parse Fragment.StringToNumber_gt0
                    (sample_inputs false) (printed 0 valid_only "") _ eq_refl)
             (VBool true) eq_refl).
Defined.

Lemma reports_pass_read (key : string) (result : value) :
  reports_pass key result = true ->
  exists v, get key result = Normal v /\ ToBoolean v = true.
Proof.
  unfold reports_pass. destruct (get key result) as [v|e]; [|discriminate].
  intros H. now exists v.
Qed.

(** X4.  A job never succeeds on anything but a passed validation: for
    every text the validator may print, parseable or not, a run whose
    outcome is success has set the [result] output to "passed".  This holds
    for both variants. *)
Theorem X4_success_implies_passed
        (JSON_parse : string -> option value) (StringToNumber_gt0 : string -> bool)
        (i : Inputs) (p : Process) :
  (outcome (IndexTs.run JSON_parse StringToNumber_gt0 i p) = Success ->
   published "result" (IndexTs.run JSON_parse StringToNumber_gt0 i p) = Some "passed")
  /\ (outcome (Legacy.run JSON_parse StringToNumber_gt0 i p) = Success ->
      published "result" (Legacy.run JSON_parse StringToNumber_gt0 i p) = Some "passed").
Proof.
  destruct (JSON_parse (output p)) as [result|] eqn:Hparse.
  - split; intros Hsuccess.
    + destruct (reports_pass "success" result) eqn:Hpass.
      * destruct (reports_pass_read _ _ Hpass) as (v & Hread & Htruthy).
        rewrite (IndexTs_result_published _ StringToNumber_gt0 i _ _ _ Hparse Hread).
        now rewrite Htruthy.
      * pose proof (IndexTs_run_doomed JSON_parse StringToNumber_gt0 i p result Hparse
                      (IndexTs_determine_failure_doomed _ _ _ Hpass)) as Hfail.
        rewrite Hsuccess in Hfail. discriminate Hfail.
    + destruct (reports_pass "valid" result) eqn:Hpass.
      * destruct (reports_pass_read _ _ Hpass) as (v & Hread & Htruthy).
        rewrite (Legacy_result_published _ StringToNumber_gt0 i _ _ _ Hparse Hread).
        now rewrite Htruthy.
      * pose proof (Legacy_run_doomed JSON_parse StringToNumber_gt0 i p result Hparse
                      (Legacy_determine_failure_doomed _ _ _ Hpass)) as Hfail.
        rewrite Hsuccess in Hfail. discriminate Hfail.
  - split; intros Hsuccess; exfalso; revert Hsuccess.
    + rewrite (IndexTs_run_unparsed _ _ _ _ Hparse). unfold outcome.
      rewrite !outcome_from_app.
      rewrite (only_log_outcome _ _ (preamble_only_log i)).
      rewrite (only_log_outcome _ _ (raw_output_only_log p)).
      discriminate.
    + rewrite (Legacy_run_unparsed _ _ _ _ Hparse). unfold outcome.
      rewrite !outcome_from_app.
      rewrite (only_log_outcome _ _ (preamble_only_log i)).
      discriminate.
Qed.

Lemma X4_witness :
  published "result" (run_index (sample_inputs false) (printed 0 success_only ""))
  = Some "passed"
  /\ published "result" (run_legacy (sample_inputs false) (printed 0 valid_only ""))
     = Some "passed".
Proof.
  split.
  - apply (proj1 (X4_success_implies_passed
                    Fragment.JSON_parse Fragment.StringToNumber_gt0
                    (sample_inputs false) (printed 0 success_only ""))).
    reflexivity.
  - apply (proj2 (X4_success_implies_passed
                    Fragment.JSON_parse Fragment.StringToNumber_gt0
                    (sample_inputs false) (printed 0 valid_only ""))).
    reflexivity.
Defined.

(** ** The decision on documents of the declared shape *)

(** X5.  Warnings alone never fail a job: on a document of the declared
    shape that reports success, the job succeeds whenever the
    fail-on-warnings switch is off, however many warnings there are, and
    also whenever there is no warning, whatever the switch.  This holds for
    both variants. *)
Theorem X5_warnings_alone_do_not_fail
        (JSON_parse : string -> option value) (StringToNumber_gt0 : string -> bool)
        (i : Inputs) (p : Process) (result : value) :
  JSON_parse (output p) = Some result ->
  failOnWarnings i = false \/ findings (field "warnings" result) = [] ->
  (IndexTsShape.is_ValidationResult result = true ->
   reports_pass "success" result = true ->
   outcome (IndexTs.run JSON_parse StringToNumber_gt0 i p) = Success)
  /\ (LegacyShape.is_ValidationResult result = true ->
      reports_pass "valid" result = true ->
      outcome (Legacy.run JSON_parse StringToNumber_gt0 i p) = Success).
Proof.
  intros Hparse Hquiet.
  assert (Hpolicy :
            (failOnWarnings i
             && match findings (field "warnings" result) with
                | [] => false
                | _ => true
                end)%bool = false).
  { destruct Hquiet as [-> | ->]; [reflexivity | apply andb_false_r]. }
  split; intros Hshape Hpass.
  - rewrite (IndexTs_run_outcome _ _ _ _ _ Hparse Hshape).
    rewrite (IndexTs_determine_failure_shape _ _ _ Hshape).
    rewrite Hpass, Hpolicy. reflexivity.
  - rewrite (Legacy_run_outcome _ _ _ _ _ Hparse Hshape).
    rewrite (Legacy_determine_failure_shape _ _ _ Hshape).
    rewrite Hpass, Hpolicy. reflexivity.
Qed.

Lemma X5_witness :
  outcome (run_index (sample_inputs false) (printed 0 warned_document "")) = Success
  /\ outcome (run_legacy (sample_inputs false) (printed 0 warned_document "")) = Success.
Proof.
  pose proof (X5_warnings_alone_do_not_fail
                Fragment.JSON_parse Fragment.StringToNumber_gt0
                (sample_inputs false) (printed 0 warned_document "") _
                eq_refl (or_introl eq_refl))
    as [Hindex Hlegacy].
  split; [apply Hindex | apply Hlegacy]; reflexivity.
Defined.

(** X6.  A reported failure comes first: on a document of the declared
    shape whose pass/fail key is not truthy, the job fails with the reason
    "Validation failed with N error(s)", N being the number of entries of
    [errors] (0 when [src/index.ts] finds no [errors]), whether or not
    there are warnings and whatever the fail-on-warnings switch.  This
    holds for both variants. *)
Theorem X6_reported_failure_takes_precedence
        (JSON_parse : string -> option value) (StringToNumber_gt0 : string -> bool)
        (i : Inputs) (p : Process) (result : value) :
  JSON_parse (output p) = Some result ->
  (IndexTsShape.is_ValidationResult result = true ->
   reports_pass "success" result = false ->
   outcome (IndexTs.run JSON_parse StringToNumber_gt0 i p)
   = Failure (semantic_failure (count_text (findings (field "errors" result)))))
  /\ (LegacyShape.is_ValidationResult result = true ->
      reports_pass "valid" result = false ->
      outcome (Legacy.run JSON_parse StringToNumber_gt0 i p)
      = Failure (semantic_failure (count_text (findings (field "errors" result))))).
Proof.
  intros Hparse. split; intros Hshape Hpass.
  - rewrite (IndexTs_run_outcome _ _ _ _ _ Hparse Hshape).
    rewrite (IndexTs_determine_failure_shape _ _ _ Hshape).
    rewrite Hpass. reflexivity.
  - rewrite (Legacy_run_outcome _ _ _ _ _ Hparse Hshape).
    rewrite (Legacy_determine_failure_shape _ _ _ Hshape).
    rewrite Hpass. reflexivity.
Qed.

Lemma X6_witness :
  outcome (run_index (sample_inputs true) (printed 0 failing_with_warning ""))
  = Failure "Validation failed with 2 error(s)"
  /\ outcome (run_legacy (sample_inputs true) (printed 0 failing_with_warning ""))
     = Failure "Validation failed with 2 error(s)".
Proof.
  pose proof (X6_reported_failure_takes_precedence
                Fragment.JSON_parse Fragment.StringToNumber_gt0
                (sample_inputs true) (printed 0 failing_with_warning "") _ eq_refl)
    as [Hindex Hlegacy].
  split; [apply Hindex | apply Hlegacy]; reflexivity.
Defined.

(** ** The outputs on documents of the declared shape *)

(** X7.  On a document of the declared shape, [run] of [src/index.ts] sets
    each of the seven outputs exactly once and in the declared order,
    whether the job then passes or fails.  The legacy variant sets the
    same seven when the document has a scoring object, and only the first
    three when it has none. *)
Theorem X7_outputs_set_once_in_order
        (JSON_parse : string -> option value) (StringToNumber_gt0 : string -> bool)
        (i : Inputs) (p : Process) (result : value) :
  JSON_parse (output p) = Some result ->
  (IndexTsShape.is_ValidationResult result = true ->
   map fst (outputs (IndexTs.run JSON_parse StringToNumber_gt0 i p)) = output_names)
  /\ (LegacyShape.is_ValidationResult result = true ->
      map fst (outputs (Legacy.run JSON_parse StringToNumber_gt0 i p))
      = if ToBoolean (field "scoringResult" result) then output_names
        else firstn 3 output_names).
Proof.
  intros Hparse. split; intros Hshape;
    destruct result as [| | | | | |props]; try discriminate.
  - destruct (IndexTs_scoring_cases props Hshape) as [E | [scoring [E Hs]]].
    + now rewrite (IndexTs_run_outputs_absent _ _ _ _ _ Hparse Hshape E).
    + now rewrite (IndexTs_run_outputs_present _ _ _ _ _ _ Hparse Hshape E).
  - destruct (Legacy_scoring_cases props Hshape) as [E | [scoring [E Hs]]].
    + rewrite (Legacy_run_outputs_absent _ _ _ _ _ Hparse Hshape E).
      cbn [field]. now rewrite E.
    + destruct (Legacy_run_outputs_present
                  JSON_parse StringToNumber_gt0 i p _ _ Hparse Hshape E)
        as (zc & zt & _ & _ & ->).
      cbn [field]. now rewrite E.
Qed.

Lemma X7_witness :
  map fst (outputs (run_index (sample_inputs true) (printed 0 failing_with_warning "")))
  = output_names
  /\ map fst (outputs (run_legacy (sample_inputs true) (printed 0 failing_with_warning "")))
     = ["result"; "error-count"; "warning-count"].
Proof.
  pose proof (X7_outputs_set_once_in_order
                Fragment.JSON_parse Fragment.StringToNumber_gt0
                (sample_inputs true) (printed 0 failing_with_warning "") _ eq_refl)
    as [Hindex Hlegacy].
  split; [apply Hindex | apply Hlegacy]; reflexivity.
Defined.

(** X8.  The fallbacks of the scoring outputs.  On a document of the
    declared shape with a scoring object, [availability-score] is
    "not-tested" when the availability dimension holds no number (under
    [total] in [src/index.ts], under [score] in the legacy variant), and in
    [src/index.ts] [production-ready] is "true" only when [productionReady]
    is [true]: missing, null or false all give "false". *)
Theorem X8_scoring_fallbacks
        (JSON_parse : string -> option value) (StringToNumber_gt0 : string -> bool)
        (i : Inputs) (p : Process) (result : value) (scoring : list (string * value)) :
  JSON_parse (output p) = Some result ->
  field "scoringResult" result = VObj scoring ->
  (IndexTsShape.is_ValidationResult result = true ->
   (dimension_value "total" (prop "availability" scoring) = None ->
    published "availability-score" (IndexTs.run JSON_parse StringToNumber_gt0 i p)
    = Some "not-tested")
   /\ published "production-ready" (IndexTs.run JSON_parse StringToNumber_gt0 i p)
      = Some (match prop "productionReady" scoring with
              | VBool true => "true"
              | _ => "false"
              end))
  /\ (LegacyShape.is_ValidationResult result = true ->
      dimension_value "score" (prop "availability" scoring) = None ->
      published "availability-score" (Legacy.run JSON_parse StringToNumber_gt0 i p)
      = Some "not-tested").
Proof.
  intros Hparse E. split; intros Hshape.
  - destruct (IndexTs_published_scores
                JSON_parse StringToNumber_gt0 i p _ _ Hparse Hshape E)
      as (_ & _ & Ha & Hp).
    split.
    + intros Hnone. rewrite Ha. unfold score_text. now rewrite Hnone.
    + rewrite Hp.
      destruct result as [| | | | | |props]; try discriminate.
      simpl in Hshape, E. split_shape Hshape. rewrite E in Hshape0.
      simpl in Hshape0. split_shape Hshape0.
      destruct (prop "productionReady" scoring) as [| |[|]| | | |];
        try discriminate; reflexivity.
  - intros Hnone.
    destruct (Legacy_published_scores
                JSON_parse StringToNumber_gt0 i p _ _ Hparse Hshape E)
      as (_ & _ & Ha).
    rewrite Ha. unfold score_text. now rewrite Hnone.
Qed.

Lemma X8_witness :
  published "availability-score"
    (run_index (sample_inputs false) (printed 0 scored_by_total "")) = Some "not-tested"
  /\ published "production-ready"
       (run_index (sample_inputs false) (printed 0 unscored_dimensions "")) = Some "false"
  /\ published "availability-score"
       (run_legacy (sample_inputs false) (printed 0 scored_by_score "")) = Some "not-tested".
Proof.
  pose proof (X8_scoring_fallbacks
                Fragment.JSON_parse Fragment.StringToNumber_gt0
                (sample_inputs false) (printed 0 scored_by_total "") _ _
                eq_refl eq_refl)
    as [Hindex _].
  pose proof (X8_scoring_fallbacks
                Fragment.JSON_parse Fragment.StringToNumber_gt0
                (sample_inputs false) (printed 0 unscored_dimensions "") _ _
                eq_refl eq_refl)
    as [Hindex' _].
  pose proof (X8_scoring_fallbacks
                Fragment.JSON_parse Fragment.StringToNumber_gt0
                (sample_inputs false) (printed 0 scored_by_score "") _ _
                eq_refl eq_refl)
    as [_ Hlegacy].
  split; [|split].
  - exact (proj1 (Hindex eq_refl) eq_refl).
  - exact (proj2 (Hindex' eq_refl)).
  - exact (Hlegacy eq_refl eq_refl).
Defined.

(** ** What is displayed for the findings *)

Lemma finding_line_text (v : value) :
  is_Finding v = true ->
  IndexTs.finding_line v = Normal ("  - " ++ finding_text v).
Proof.
  unfold IndexTs.finding_line, finding_text.
  destruct v as [| | | |s| |props]; simpl; try discriminate; intros H.
  - unfold or_else; simpl. reflexivity.
  - destruct (prop "message" props) as [| | | |m| |]; try discriminate.
    unfold or_else; simpl.
    destruct (String.eqb m ""); simpl in *; [|reflexivity].
    destruct (has_own "toString" props); [discriminate | reflexivity].
Qed.

Lemma Legacy_finding_line_text (v : value) :
  is_Finding v = true ->
  Legacy.finding_line v = Normal ("  - " ++ legacy_finding_text v).
Proof.
  unfold Legacy.finding_line, legacy_finding_text.
  destruct v as [| | | |s| |props]; simpl; try discriminate; intros H.
  - reflexivity.
  - destruct (prop "message" props) as [| | | |m| |]; try discriminate.
    reflexivity.
Qed.

Lemma forEach_lines (l : list value) (line : value -> completion string)
      (text : value -> string) (level : string -> call) :
  (forall v, In v l -> line v = Normal (text v)) ->
  forEach_elements l (fun v => s <- eval (line v) ;; core (level s))
  = (map (fun v => level (text v)) l, Normal tt).
Proof.
  induction l as [|x l IH]; intros H; cbn [forEach_elements map]; [reflexivity|].
  rewrite (H x (or_introl eq_refl)), bind_eval_Normal, bind_core.
  rewrite IH by (intros v Hv; apply H; now right).
  reflexivity.
Qed.

Lemma count_of_cons_positive {A} (x : A) (l : list A) :
  (0 <? Z.of_nat (List.length (x :: l)))%Z = true.
Proof. reflexivity. Qed.

(** X9.  What [src/index.ts] displays for a sequence of findings of the
    declared shape.  For a non-empty [errors]: an empty line, the header
    "Found N error(s):" with N the length of the sequence, then one line
    per finding, in the order of the sequence, all at level [error], each
    carrying the finding's message (a bare string is displayed as itself).
    For a non-empty [warnings] the same at level [warning].  For an empty
    sequence nothing is written. *)
Theorem X9_findings_are_displayed_in_order
        (StringToNumber_gt0 : string -> bool) (props : list (string * value))
        (l : list value) :
  forallb is_Finding l = true ->
  (prop "errors" props = VArr l ->
   IndexTs.display_errors StringToNumber_gt0 (VObj props)
   = (match l with
      | [] => []
      | _ => info "" :: error ("❌ Found " ++ count_text l ++ " error(s):")
               :: map (fun v => error ("  - " ++ finding_text v)) l
      end, Normal tt))
  /\ (prop "warnings" props = VArr l ->
      IndexTs.display_warnings StringToNumber_gt0 (VObj props)
      = (match l with
         | [] => []
         | _ => info "" :: warning ("⚠️  Found " ++ count_text l ++ " warning(s):")
                  :: map (fun v => warning ("  - " ++ finding_text v)) l
         end, Normal tt)).
Proof.
  intros Hl.
  assert (Hlines : forall v, In v l ->
                             IndexTs.finding_line v = Normal ("  - " ++ finding_text v)).
  { intros v Hv. apply finding_line_text. rewrite forallb_forall in Hl. now apply Hl. }
  split; intros E.
  - unfold IndexTs.display_errors. cbn [get andThen]. rewrite E.
    destruct l as [|x l]; [reflexivity|].
    cbn [IndexTs.non_empty ToBoolean get andThen String.eqb Ascii.eqb Bool.eqb gt_zero].
    rewrite count_of_cons_positive, bind_eval_Normal. cbn [when ToString].
    rewrite bind_core, bind_eval_Normal, bind_core, bind_eval_Normal. cbn [forEach].
    rewrite (forEach_lines _ _ (fun v => "  - " ++ finding_text v) error Hlines).
    reflexivity.
  - unfold IndexTs.display_warnings. cbn [get andThen]. rewrite E.
    destruct l as [|x l]; [reflexivity|].
    cbn [IndexTs.non_empty ToBoolean get andThen String.eqb Ascii.eqb Bool.eqb gt_zero].
    rewrite count_of_cons_positive, bind_eval_Normal. cbn [when ToString].
    rewrite bind_core, bind_eval_Normal, bind_core, bind_eval_Normal. cbn [forEach].
    rewrite (forEach_lines _ _ (fun v => "  - " ++ finding_text v) warning Hlines).
    reflexivity.
Qed.

Lemma X9_witness :
  IndexTs.display_errors Fragment.StringToNumber_gt0
    (VObj [("errors", VArr [VStr "first"; VObj [("message", VStr "second")]])])
  = ([ info ""; error "❌ Found 2 error(s):"; error "  - first"; error "  - second" ],
     Normal tt).
Proof.
  exact (proj1 (X9_findings_are_displayed_in_order
                  Fragment.StringToNumber_gt0
                  [("errors", VArr [VStr "first"; VObj [("message", VStr "second")]])]
                  [VStr "first"; VObj [("message", VStr "second")]]
                  eq_refl) eq_refl).
Defined.

(** X10.  What the legacy variant displays for a sequence of findings of
    the declared shape: the same empty line, header and one line per
    finding in order as [src/index.ts], except that each line carries
    [finding.message] alone, so that a finding given as a bare string is
    displayed as "undefined". *)
Theorem X10_legacy_findings_are_displayed_in_order
        (StringToNumber_gt0 : string -> bool) (props : list (string * value))
        (l : list value) :
  forallb is_Finding l = true ->
  (prop "errors" props = VArr l ->
   Legacy.display_errors StringToNumber_gt0 (VObj props)
   = (match l with
      | [] => []
      | _ => info "" :: error ("❌ Found " ++ count_text l ++ " error(s):")
               :: map (fun v => error ("  - " ++ legacy_finding_text v)) l
      end, Normal tt))
  /\ (prop "warnings" props = VArr l ->
      Legacy.display_warnings StringToNumber_gt0 (VObj props)
      = (match l with
         | [] => []
         | _ => info "" :: warning ("⚠️  Found " ++ count_text l ++ " warning(s):")
                  :: map (fun v => warning ("  - " ++ legacy_finding_text v)) l
         end, Normal tt)).
Proof.
  intros Hl.
  assert (Hlines : forall v, In v l ->
                             Legacy.finding_line v
                             = Normal ("  - " ++ legacy_finding_text v)).
  { intros v Hv. apply Legacy_finding_line_text.
    rewrite forallb_forall in Hl. now apply Hl. }
  split; intros E.
  - unfold Legacy.display_errors. cbn [get andThen]. rewrite E.
    destruct l as [|x l]; [reflexivity|].
    cbn [get andThen String.eqb Ascii.eqb Bool.eqb gt_zero].
    rewrite count_of_cons_positive, bind_eval_Normal. cbn [when ToString].
    rewrite bind_core, bind_eval_Normal, bind_core, bind_eval_Normal. cbn [forEach].
    rewrite (forEach_lines _ _ (fun v => "  - " ++ legacy_finding_text v) error Hlines).
    reflexivity.
  - unfold Legacy.display_warnings. cbn [get andThen]. rewrite E.
    destruct l as [|x l]; [reflexivity|].
    cbn [get andThen String.eqb Ascii.eqb Bool.eqb gt_zero].
    rewrite count_of_cons_positive, bind_eval_Normal. cbn [when ToString].
    rewrite bind_core, bind_eval_Normal, bind_core, bind_eval_Normal. cbn [forEach].
    rewrite (forEach_lines _ _ (fun v => "  - " ++ legacy_finding_text v) warning Hlines).
    reflexivity.
Qed.

Lemma X10_witness :
  Legacy.display_warnings Fragment.StringToNumber_gt0
    (VObj [("warnings", VArr [VStr "first"; VObj [("message", VStr "second")]])])
  = ([ info ""; warning "⚠️  Found 2 warning(s):";
       warning "  - undefined"; warning "  - second" ],
     Normal tt).
Proof.
  exact (proj2 (X10_legacy_findings_are_displayed_in_order
                  Fragment.StringToNumber_gt0
                  [("warnings", VArr [VStr "first"; VObj [("message", VStr "second")]])]
                  [VStr "first"; VObj [("message", VStr "second")]]
                  eq_refl) eq_refl).
Defined.

(** ** A [null] among the findings *)

Lemma bind_faults {A B} (m : Action A) (f : A -> Action B) (e : fault) :
  snd m = Throw e -> bind m f = (fst m, Throw e).
Proof. intros H. unfold bind. now rewrite H. Qed.

Lemma length_or_zero_array (l : list value) :
  IndexTs.length_or_zero (VArr l) >>= toString = Normal (count_text l).
Proof. unfold IndexTs.length_or_zero, count_text. destruct l; reflexivity. Qed.

Lemma forEach_stops_at_null (good rest : list value) (level : string -> call) :
  forallb is_Finding good = true ->
  forEach_elements (good ++ VNull :: rest)
    (fun v => s <- eval (IndexTs.finding_line v) ;; core (level s))
  = (map (fun v => level ("  - " ++ finding_text v)) good,
     Throw (NullishRead VNull "message")).
Proof.
  induction good as [|x good IH]; intros H.
  - reflexivity.
  - cbn [forallb] in H. apply andb_prop in H as [Hx Hgood].
    cbn [app forEach_elements map].
    rewrite (finding_line_text _ Hx), bind_eval_Normal, bind_core.
    now rewrite (IH Hgood).
Qed.

Lemma IndexTs_scoring_stage (props : list (string * value)) :
  optional IndexTsShape.is_ScoringResult (prop "scoringResult" props) = true ->
  snd (IndexTs.set_scoring_outputs (VObj props)) = Normal tt
  /\ map fst (outputs (fst (IndexTs.set_scoring_outputs (VObj props))))
     = skipn 3 output_names.
Proof.
  intros H.
  destruct (prop "scoringResult" props) as [| | | | | |scoring] eqn:E;
    try discriminate.
  - rewrite IndexTs_set_scoring_outputs_absent;
      [now split | simpl; now rewrite E | discriminate..].
  - rewrite IndexTs_set_scoring_outputs_absent;
      [now split | simpl; now rewrite E | discriminate..].
  - rewrite (IndexTs_set_scoring_outputs_present _ _ E H). cbn [fst snd].
    split; [reflexivity|].
    rewrite outputs_app, (only_log_outputs _ (IndexTs_display_scores_quiet _)).
    reflexivity.
Qed.

(** X11.  A [null] among the errors turns any run of [src/index.ts] into a
    failure of its own.  When [errors] holds a [null] after findings of the
    declared shape (the rest of the document being of the declared shape),
    the seven outputs are set as usual, the findings before the [null] are
    displayed, and the job then fails with the message of the fault,
    "Cannot read properties of null (reading 'message')": also when the
    document reports success, and in place of the reason "Validation failed
    with N error(s)" when it does not. *)
Theorem X11_null_finding_fails_the_job
        (JSON_parse : string -> option value) (StringToNumber_gt0 : string -> bool)
        (i : Inputs) (p : Process) (props : list (string * value))
        (good rest : list value) :
  JSON_parse (output p) = Some (VObj props) ->
  prop "errors" props = VArr (good ++ VNull :: rest) ->
  forallb is_Finding good = true ->
  optional (is_array_of is_Finding) (prop "warnings" props) = true ->
  optional IndexTsShape.is_ScoringResult (prop "scoringResult" props) = true ->
  outcome (IndexTs.run JSON_parse StringToNumber_gt0 i p)
  = Failure "Cannot read properties of null (reading 'message')"
  /\ map fst (outputs (IndexTs.run JSON_parse StringToNumber_gt0 i p)) = output_names
  /\ IndexTs.display_errors StringToNumber_gt0 (VObj props)
     = (info ""
          :: error ("❌ Found " ++ count_text (good ++ VNull :: rest) ++ " error(s):")
          :: map (fun v => error ("  - " ++ finding_text v)) good,
        Throw (NullishRead VNull "message")).
Proof.
  intros Hparse Herrors Hgood Hwarnings Hscoring.
  assert (Hbasic :
            IndexTs.set_basic_outputs (VObj props)
            = ([ setOutput "result"
                   (if ToBoolean (prop "success" props) then "passed" else "failed");
                 setOutput "error-count" (count_text (good ++ VNull :: rest));
                 setOutput "warning-count"
                   (count_text (findings (prop "warnings" props))) ], Normal tt)).
  { unfold IndexTs.set_basic_outputs. cbn [get andThen].
    rewrite Herrors, length_or_zero_array, (length_or_zero_text _ Hwarnings).
    reflexivity. }
  assert (Hdisplay :
            IndexTs.display_errors StringToNumber_gt0 (VObj props)
            = (info ""
                 :: error ("❌ Found " ++ count_text (good ++ VNull :: rest)
                             ++ " error(s):")
                 :: map (fun v => error ("  - " ++ finding_text v)) good,
               Throw (NullishRead VNull "message"))).
  { unfold IndexTs.display_errors. cbn [get andThen]. rewrite Herrors.
    cbn [IndexTs.non_empty ToBoolean get andThen String.eqb Ascii.eqb Bool.eqb gt_zero].
    assert (Hpositive :
              (0 <? Z.of_nat (List.length (good ++ VNull :: rest)))%Z = true).
    { destruct good; reflexivity. }
    rewrite Hpositive, bind_eval_Normal. cbn [when ToString].
    rewrite bind_core, bind_eval_Normal, bind_core, bind_eval_Normal. cbn [forEach].
    now rewrite (forEach_stops_at_null _ _ error Hgood). }
  destruct (IndexTs_scoring_stage props Hscoring) as [Hnormal Hnames].
  assert (Hrun :
            IndexTs.run JSON_parse StringToNumber_gt0 i p
            = (preamble i ++ raw_output p
                 ++ fst (IndexTs.set_basic_outputs (VObj props))
                 ++ fst (IndexTs.set_scoring_outputs (VObj props))
                 ++ fst (IndexTs.display_errors StringToNumber_gt0 (VObj props))
                 ++ [setFailed "Cannot read properties of null (reading 'message')"])%list).
  { rewrite (IndexTs_run_parsed _ _ _ _ _ Hparse). unfold IndexTs.interpret.
    rewrite try_catch_bind by now rewrite Hbasic.
    rewrite try_catch_bind by assumption.
    rewrite (bind_faults _ _ (NullishRead VNull "message")) by now rewrite Hdisplay.
    unfold try_catch. rewrite Hdisplay. reflexivity. }
  split; [|split; [|exact Hdisplay]].
  - rewrite Hrun. unfold outcome. rewrite !outcome_from_app.
    rewrite (only_log_outcome _ _ (preamble_only_log i)).
    rewrite (only_log_outcome _ _ (raw_output_only_log p)).
    rewrite (no_setFailed_outcome (fst (IndexTs.set_basic_outputs (VObj props))))
      by now rewrite Hbasic.
    rewrite (no_setFailed_outcome _ _
               (ordinary_no_setFailed _ (IndexTs_set_scoring_outputs_ordinary _))).
    rewrite (only_log_outcome _ _ (IndexTs_display_errors_quiet _ _)).
    reflexivity.
  - rewrite Hrun, !outputs_app.
    rewrite (only_log_outputs _ (preamble_only_log i)).
    rewrite (only_log_outputs _ (raw_output_only_log p)).
    rewrite (only_log_outputs _ (IndexTs_display_errors_quiet _ _)).
    rewrite Hbasic. cbn [fst outputs app]. rewrite app_nil_r.
    cbn [map fst]. now rewrite Hnames.
Qed.

Lemma X11_witness :
  outcome (run_index (sample_inputs false) (printed 0 faulting_after_result ""))
  = Failure "Cannot read properties of null (reading 'message')"
  /\ map fst (outputs (run_index (sample_inputs false)
                                 (printed 0 faulting_after_result "")))
     = output_names.
Proof.
  pose proof (X11_null_finding_fails_the_job
                Fragment.JSON_parse Fragment.StringToNumber_gt0
                (sample_inputs false) (printed 0 faulting_after_result "")
                _ [] [] eq_refl eq_refl eq_refl eq_refl eq_refl)
    as (Houtcome & Hnames & _).
  split; [exact Houtcome | exact Hnames].
Defined.

(** ** The legacy variant on incomplete documents *)

(** X12.  The legacy variant requires both sequences.  When the document
    is an object without [errors], the run sets the [result] output, faults
    on [result.errors.length] and fails the job with "Cannot read
    properties of undefined (reading 'length')"; when [errors] is an array
    and [warnings] is missing, it also sets [error-count] before failing
    the same way.  No other output is set, even for a passed validation. *)
Theorem X12_legacy_requires_both_sequences
        (JSON_parse : string -> option value) (StringToNumber_gt0 : string -> bool)
        (i : Inputs) (p : Process) (props : list (string * value)) :
  JSON_parse (output p) = Some (VObj props) ->
  (prop "errors" props = VUndef ->
   outcome (Legacy.run JSON_parse StringToNumber_gt0 i p)
   = Failure "Cannot read properties of undefined (reading 'length')"
   /\ outputs (Legacy.run JSON_parse StringToNumber_gt0 i p)
      = [("result", if ToBoolean (prop "valid" props) then "passed" else "failed")])
  /\ (forall l,
        prop "errors" props = VArr l ->
        prop "warnings" props = VUndef ->
        outcome (Legacy.run JSON_parse StringToNumber_gt0 i p)
        = Failure "Cannot read properties of undefined (reading 'length')"
        /\ outputs (Legacy.run JSON_parse StringToNumber_gt0 i p)
           = [ ("result", if ToBoolean (prop "valid" props) then "passed" else "failed");
               ("error-count", count_text l) ]).
Proof.
  intros Hparse. rewrite (Legacy_run_parsed _ _ _ _ _ Hparse).
  unfold outcome. rewrite outcome_from_app, outputs_app.
  rewrite (only_log_outcome _ _ (preamble_only_log i)).
  rewrite (only_log_outputs _ (preamble_only_log i)).
  unfold Legacy.interpret, Legacy.set_outputs. cbn [get andThen].
  split.
  - intros E. rewrite E. split; reflexivity.
  - intros l E E'. rewrite E, E'. split; reflexivity.
Qed.

Lemma X12_witness :
  outcome (run_legacy (sample_inputs false) (printed 0 (json "{ 'valid': true }") ""))
  = Failure "Cannot read properties of undefined (reading 'length')"
  /\ outputs (run_legacy (sample_inputs false)
                         (printed 0 (json "{ 'valid': true, 'errors': [] }") ""))
     = [("result", "passed"); ("error-count", "0")].
Proof.
  pose proof (X12_legacy_requires_both_sequences
                Fragment.JSON_parse Fragment.StringToNumber_gt0
                (sample_inputs false) (printed 0 (json "{ 'valid': true }") "")
                _ eq_refl)
    as [Herrors _].
  pose proof (X12_legacy_requires_both_sequences
                Fragment.JSON_parse Fragment.StringToNumber_gt0
                (sample_inputs false)
                (printed 0 (json "{ 'valid': true, 'errors': [] }") "")
                _ eq_refl)
    as [_ Hwarnings].
  split.
  - exact (proj1 (Herrors eq_refl)).
  - exact (proj2 (Hwarnings [] eq_refl eq_refl)).
Defined.

(** ** What the error stream and the exit code cannot change *)

(** X13.  The text the validator writes on its error stream never changes
    what a run decides: in [src/index.ts] two runs that differ only in that
    text set the same outputs and end in the same outcome, whether the
    output parses or not.  The legacy variant reads neither the error
    stream nor the exit code: two runs on the same output are equal call
    for call. *)
Theorem X13_error_stream_changes_no_decision
        (JSON_parse : string -> option value) (StringToNumber_gt0 : string -> bool)
        (i : Inputs) (code code' : Z) (stdout stderr stderr' : string) :
  (outputs (IndexTs.run JSON_parse StringToNumber_gt0 i (printed code stdout stderr))
   = outputs (IndexTs.run JSON_parse StringToNumber_gt0 i (printed code stdout stderr'))
   /\ outcome (IndexTs.run JSON_parse StringToNumber_gt0 i (printed code stdout stderr))
      = outcome (IndexTs.run JSON_parse StringToNumber_gt0 i (printed code stdout stderr')))
  /\ Legacy.run JSON_parse StringToNumber_gt0 i (printed code stdout stderr)
     = Legacy.run JSON_parse StringToNumber_gt0 i (printed code' stdout stderr').
Proof.
  split; [|reflexivity].
  destruct (JSON_parse stdout) as [result|] eqn:Hparse.
  - rewrite (IndexTs_run_parsed _ _ _ (printed code stdout stderr) _ Hparse).
    rewrite (IndexTs_run_parsed _ _ _ (printed code stdout stderr') _ Hparse).
    unfold outcome. rewrite !outcome_from_app, !outputs_app.
    rewrite !(only_log_outcome _ _ (preamble_only_log i)).
    rewrite !(only_log_outcome _ _ (raw_output_only_log _)).
    rewrite !(only_log_outputs _ (raw_output_only_log _)).
    split; reflexivity.
  - rewrite (IndexTs_run_unparsed _ _ _ (printed code stdout stderr) Hparse).
    rewrite (IndexTs_run_unparsed _ _ _ (printed code stdout stderr') Hparse).
    unfold outcome. rewrite !outcome_from_app, !outputs_app.
    rewrite !(only_log_outcome _ _ (preamble_only_log i)).
    rewrite !(only_log_outcome _ _ (raw_output_only_log _)).
    rewrite !(only_log_outputs _ (raw_output_only_log _)).
    split; reflexivity.
Qed.

(** ** An object in place of a sequence *)

Lemma prop_not_own (k : string) (o : list (string * value)) :
  has_own k o = false -> prop k o = VUndef.
Proof. unfold has_own, prop. now destruct (own_property k o). Qed.

Lemma lookup_app (name : string) (o o' : list (string * string)) :
  lookup name (o ++ o')
  = match lookup name o' with
    | Some v => Some v
    | None => lookup name o
    end.
Proof.
  induction o as [|[n v] o IH]; cbn [app lookup].
  - now destruct (lookup name o').
  - rewrite IH. now destruct (lookup name o').
Qed.

Lemma lookup_absent (name : string) (o : list (string * string)) :
  ~ In name (map fst o) -> lookup name o = None.
Proof.
  induction o as [|[n v] o IH]; cbn [map fst In lookup]; [reflexivity|].
  intros H. rewrite IH by tauto.
  destruct (String.eqb_spec name n) as [->|_]; [|reflexivity].
  exfalso. apply H. now left.
Qed.

(** X14.  In [src/index.ts] a single finding given as an object in place of
    the [errors] sequence is dropped without a word: as the object has no
    [length], the [error-count] output is "0", nothing is displayed for it,
    and a reported failure gives the reason "Validation failed with 0
    error(s)".  (The rest of the document is of the declared shape.) *)
Theorem X14_object_in_place_of_errors_is_dropped
        (JSON_parse : string -> option value) (StringToNumber_gt0 : string -> bool)
        (i : Inputs) (p : Process) (props o : list (string * value)) :
  JSON_parse (output p) = Some (VObj props) ->
  prop "errors" props = VObj o ->
  has_own "length" o = false ->
  optional (is_array_of is_Finding) (prop "warnings" props) = true ->
  optional IndexTsShape.is_ScoringResult (prop "scoringResult" props) = true ->
  published "error-count" (IndexTs.run JSON_parse StringToNumber_gt0 i p) = Some "0"
  /\ IndexTs.display_errors StringToNumber_gt0 (VObj props) = ([], Normal tt)
  /\ (ToBoolean (prop "success" props) = false ->
      outcome (IndexTs.run JSON_parse StringToNumber_gt0 i p)
      = Failure "Validation failed with 0 error(s)").
Proof.
  intros Hparse Herrors Hlength Hwarnings Hscoring.
  pose proof (prop_not_own _ _ Hlength) as Hundef.
  assert (Hbasic :
            IndexTs.set_basic_outputs (VObj props)
            = ([ setOutput "result"
                   (if ToBoolean (prop "success" props) then "passed" else "failed");
                 setOutput "error-count" "0";
                 setOutput "warning-count"
                   (count_text (findings (prop "warnings" props))) ], Normal tt)).
  { unfold IndexTs.set_basic_outputs. cbn [get andThen].
    rewrite Herrors, (length_or_zero_text _ Hwarnings).
    unfold IndexTs.length_or_zero. cbn [get_opt get andThen]. rewrite Hundef.
    reflexivity. }
  assert (Hdisplay : IndexTs.display_errors StringToNumber_gt0 (VObj props)
                     = ([], Normal tt)).
  { unfold IndexTs.display_errors. cbn [get andThen]. rewrite Herrors.
    cbn [IndexTs.non_empty ToBoolean get andThen]. rewrite Hundef. reflexivity. }
  destruct (IndexTs_scoring_stage props Hscoring) as [Hnormal Hnames].
  pose proof (IndexTs_display_warnings_Normal StringToNumber_gt0 props Hwarnings)
    as Hwarned.
  assert (Hrun :
            IndexTs.run JSON_parse StringToNumber_gt0 i p
            = (preamble i ++ raw_output p
                 ++ fst (IndexTs.set_basic_outputs (VObj props))
                 ++ fst (IndexTs.set_scoring_outputs (VObj props))
                 ++ fst (IndexTs.display_warnings StringToNumber_gt0 (VObj props))
                 ++ try_catch (IndexTs.determine_failure StringToNumber_gt0
                                 (failOnWarnings i) (VObj props)))%list).
  { rewrite (IndexTs_run_parsed _ _ _ _ _ Hparse). unfold IndexTs.interpret.
    rewrite try_catch_bind by now rewrite Hbasic.
    rewrite try_catch_bind by assumption.
    rewrite try_catch_bind by now rewrite Hdisplay.
    rewrite try_catch_bind by assumption.
    rewrite Hdisplay. reflexivity. }
  split; [|split; [exact Hdisplay|]].
  - unfold published. rewrite Hrun, !outputs_app.
    rewrite (only_log_outputs _ (preamble_only_log i)).
    rewrite (only_log_outputs _ (raw_output_only_log p)).
    rewrite (only_log_outputs _ (IndexTs_display_warnings_quiet _ _)).
    rewrite Hbasic. cbn [fst outputs app].
    assert (Hrest : forall t, forallb (leaves "error-count") t = true ->
                              lookup "error-count" (outputs t) = None)
      by apply leaves_lookup.
    cbn [lookup]. rewrite lookup_app, Hrest.
    + rewrite (lookup_absent "error-count"
                 (outputs (fst (IndexTs.set_scoring_outputs (VObj props))))).
      * reflexivity.
      * rewrite Hnames. cbn. intuition discriminate.
    + apply calls_only_try_catch; [|reflexivity].
      unfold IndexTs.determine_failure. calls_only_steps.
  - intros Hfalse. rewrite Hrun. unfold outcome. rewrite !outcome_from_app.
    rewrite (only_log_outcome _ _ (preamble_only_log i)).
    rewrite (only_log_outcome _ _ (raw_output_only_log p)).
    rewrite (no_setFailed_outcome (fst (IndexTs.set_basic_outputs (VObj props))))
      by now rewrite Hbasic.
    rewrite (no_setFailed_outcome _ _
               (ordinary_no_setFailed _ (IndexTs_set_scoring_outputs_ordinary _))).
    rewrite (only_log_outcome _ _ (IndexTs_display_warnings_quiet _ _)).
    unfold IndexTs.determine_failure. cbn [get andThen].
    rewrite bind_eval_Normal, Hfalse. cbn [negb].
    rewrite Herrors. unfold IndexTs.length_or_zero. cbn [get_opt get andThen].
    rewrite Hundef. reflexivity.
Qed.

Lemma X14_witness :
  published "error-count"
    (run_index (sample_inputs false) (printed 0 object_for_errors "")) = Some "0"
  /\ outcome (run_index (sample_inputs false) (printed 0 object_for_errors ""))
     = Failure "Validation failed with 0 error(s)".
Proof.
  pose proof (X14_object_in_place_of_errors_is_dropped
                Fragment.JSON_parse Fragment.StringToNumber_gt0
                (sample_inputs false) (printed 0 object_for_errors "")
                _ _ eq_refl eq_refl eq_refl eq_refl eq_refl)
    as (Hcount & _ & Houtcome).
  split; [exact Hcount | exact (Houtcome eq_refl)].
Defined.

(** ** A dimension without its number, in the log *)

Lemma In_bind_here {A B} (c : call) (m : Action A) (f : A -> Action B) :
  In c (fst m) -> In c (fst (bind m f)).
Proof.
  intros H. unfold bind. destruct (snd m); cbn [fst]; [|assumption].
  apply in_or_app. now left.
Qed.

(** X15.  In [src/index.ts] the log and the output disagree on a dimension
    without a number.  On a document of the declared shape whose compliance
    dimension is present with a rating but no [total], the
    [compliance-score] output is "0" while the line written to the log is
    "  Compliance: undefined/100 (R)", R being the rating. *)
Theorem X15_missing_total_is_logged_as_undefined
        (JSON_parse : string -> option value) (StringToNumber_gt0 : string -> bool)
        (i : Inputs) (p : Process) (props scoring dimension : list (string * value))
        (rating : string) :
  JSON_parse (output p) = Some (VObj props) ->
  IndexTsShape.is_ValidationResult (VObj props) = true ->
  prop "scoringResult" props = VObj scoring ->
  prop "compliance" scoring = VObj dimension ->
  prop "total" dimension = VUndef ->
  prop "rating" dimension = VStr rating ->
  published "compliance-score" (IndexTs.run JSON_parse StringToNumber_gt0 i p)
  = Some "0"
  /\ In (info ("  Compliance: undefined/100 (" ++ rating ++ ")"))
        (IndexTs.run JSON_parse StringToNumber_gt0 i p).
Proof.
  intros Hparse Hshape E Ec Etotal Erating. split.
  - destruct (IndexTs_published_scores
                JSON_parse StringToNumber_gt0 i p _ _ Hparse Hshape E) as (Hc & _).
    rewrite Hc. unfold score_text, dimension_value. rewrite Ec. cbn [field].
    now rewrite Etotal.
  - assert (Hs : IndexTsShape.is_ScoringResult (VObj scoring) = true).
    { pose proof Hshape as H'. simpl in H'. split_shape H'. now rewrite E in H'0. }
    rewrite (IndexTs_run_parsed _ _ _ _ _ Hparse).
    rewrite (IndexTs_interpret_shape _ _ _ Hshape).
    rewrite (IndexTs_set_scoring_outputs_present _ _ E Hs). cbn [fst].
    apply in_or_app. right. apply in_or_app. right.
    apply in_or_app. right. apply in_or_app. left.
    apply in_or_app. right.
    unfold IndexTs.display_scores. cbn [get andThen]. rewrite E.
    cbn [get andThen]. rewrite Ec. cbn [get andThen ToBoolean when].
    rewrite Etotal, Erating.
    rewrite !bind_core, bind_eval_Normal. cbn [fst ToBoolean when].
    right. right. apply In_bind_here.
    rewrite !bind_eval_Normal. cbn [IndexTs.score_line ToString andThen].
    rewrite bind_eval_Normal. left. reflexivity.
Qed.

Lemma X15_witness :
  published "compliance-score"
    (run_index (sample_inputs false) (printed 0 unscored_dimensions "")) = Some "0"
  /\ In (info "  Compliance: undefined/100 (A)")
        (run_index (sample_inputs false) (printed 0 unscored_dimensions "")).
Proof.
  exact (X15_missing_total_is_logged_as_undefined
           Fragment.JSON_parse Fragment.StringToNumber_gt0
           (sample_inputs false) (printed 0 unscored_dimensions "")
           _ _ _ "A" eq_refl eq_refl eq_refl eq_refl eq_refl eq_refl).
Defined.
